(** * Content-Creator-Tool: monitoring middleware and content orchestration

    A shallow embedding of
      - [source/layers/middleware/monitoring.py]
          ([MetricsCollector], [PerformanceMonitor], [TelemetryMiddleware],
           [ResourceMonitor]),
      - [source/apps/core/services.py] ([ServiceResult]),
      - [source/layers/ai/content_generation.py] and
        [source/layers/ai/voiceover_generation.py] (the batch helpers),
      - [source/apps/content/services.py] and
        [source/apps/content/enhanced_services.py]
          (the stage coroutines, the pipeline, the batch operations, the
           content, asset and management services),
      - [source/apps/content/controllers.py] ([ContentController]),
    followed by the properties of the orchestration engine and of the
    services around it.

    Conventions of the embedding.
      - Python values are the constructors of [pyval]; [PDict] holds the
        entries of a [dict] whose keys are strings, as a
        [gmap string pyval].
      - A Python call either returns a value or raises: [outcome].
      - Objects that are mutated and shared (the collector's
        [defaultdict] and the lists in it) live in a [Heap] and are
        referred to by location.
      - A coroutine is embedded by what awaiting it yields: a function
        from the state before to the outcome and the state after.
        [await] on a value that is no awaitable and [async with] on an
        object without the protocol raise [TypeError], as they do in
        CPython.
      - A call binds its positional and keyword arguments to the
        parameters the callee declares ([bind_arguments]): a keyword that
        names no parameter is a [TypeError] of the call.
      - A callable reads the values it is handed and does not write to
        them, as the stage methods of the repository do with their
        context: arguments are passed as values.
      - Wall-clock readings ([time.time()], [datetime.now()]) are
        integer ticks read from the external world ([Clock]).
      - The row store and the mime sniffer are functions of the external
        world, held by the record of the service that calls them.
      - A settings category that a method reads at fixed keys
        ([AssetSettings], [ValidationSettings]) is a record whose fields
        have the types that [service_settings.py] and the defaults give
        them. *)

From stdpp Require Import gmap strings list fin_maps pretty.
From Stdlib Require Import ZArith Lia.

Set Warnings "-register-all".

(* ===================================================================== *)
(** ** Python values, exceptions and outcomes *)
(* ===================================================================== *)

Inductive pyval :=
  | PNone
  | PInt (z : Z)
  | PStr (s : string)
  | PList (l : list pyval)
  | PDict (d : gmap string pyval)
  (** the textual rendering [str(v)] of a value *)
  | PRepr (v : list pyval) (kw : gmap string pyval)
  (** a [Content] row with the rows of [content.assets.all()] *)
  | PContent (assets : list pyval)
  (** any other object without [__bool__] and [__len__] (ORM rows, blobs) *)
  | PObject (id : nat)
  (** a [ServiceResult] stored inside another value *)
  | PResult (ok : bool) (payload : pyval) (err : option string).

(** Python truthiness, as used by [if x:], [not x] and [x and y]. *)
Definition truthy (v : pyval) : bool :=
  match v with
  | PNone => false
  | PInt z => negb (z =? 0)%Z
  | PStr s => negb (String.eqb s "")
  | PList l => match l with [] => false | _ => true end
  | PDict d => negb (bool_decide (size d = 0))
  | PRepr _ _ => true
  | PContent _ => true
  | PObject _ => true
  | PResult _ _ _ => true
  end.

(** Exceptions carry their class name and [str(e)].  [except Exception]
    catches [Exc]; [BaseExc] stands for the classes that derive from
    [BaseException] only ([asyncio.CancelledError], [KeyboardInterrupt]). *)
Inductive exn :=
  | Exc (cls msg : string)
  | BaseExc (cls msg : string).

Definition exn_str (e : exn) : string :=
  match e with Exc _ m => m | BaseExc _ m => m end.

Definition is_Exception (e : exn) : bool :=
  match e with Exc _ _ => true | BaseExc _ _ => false end.

Definition KeyError (k : string) : exn := Exc "KeyError" ("'" +:+ k +:+ "'").
Definition TypeError (m : string) : exn := Exc "TypeError" m.
Definition ValueError (m : string) : exn := Exc "ValueError" m.
Definition IndexError : exn := Exc "IndexError" "list index out of range".
Definition AttributeError (m : string) : exn := Exc "AttributeError" m.
(** [str] of django's [ValidationError(m)] is the list of its messages. *)
Definition ValidationError (m : string) : exn :=
  Exc "ValidationError" ("['" +:+ m +:+ "']").
Definition CancelledError : exn := BaseExc "CancelledError" "".

Inductive outcome (A : Type) :=
  | Returned (a : A)
  | Raised (e : exn).
Arguments Returned {A} a.
Arguments Raised {A} e.

Definition has_returned {A} (o : outcome A) : bool :=
  match o with Returned _ => true | Raised _ => false end.

#[global] Instance outcome_ret : MRet outcome := @Returned.
#[global] Instance outcome_bind : MBind outcome := fun A B k o =>
  match o with
  | Returned a => k a
  | Raised e => Raised e
  end.

(** [v[k]] for a string key. *)
Definition py_getitem (v : pyval) (k : string) : outcome pyval :=
  match v with
  | PDict d => match d !! k with
               | Some x => Returned x
               | None => Raised (KeyError k)
               end
  | _ => Raised (TypeError "object is not subscriptable")
  end.

(** [v.get(k)]: [None] when the key is missing. *)
Definition py_get (v : pyval) (k : string) : outcome pyval :=
  match v with
  | PDict d => Returned (default PNone (d !! k))
  | _ => Raised (AttributeError "object has no attribute 'get'")
  end.

(** [v[i]] for a list index [i >= 0]. *)
Definition py_index (v : pyval) (i : nat) : outcome pyval :=
  match v with
  | PList l => match l !! i with
               | Some x => Returned x
               | None => Raised IndexError
               end
  | PNone => Raised (TypeError "'NoneType' object is not subscriptable")
  | _ => Raised (TypeError "object is not subscriptable")
  end.

(** [len(v)]. *)
Definition py_len (v : pyval) : outcome Z :=
  match v with
  | PStr s => Returned (Z.of_nat (String.length s))
  | PList l => Returned (Z.of_nat (length l))
  | PDict d => Returned (Z.of_nat (size d))
  | _ => Raised (TypeError "object has no len()")
  end.

(* ===================================================================== *)
(** ** [ServiceResult] (source/apps/core/services.py) *)
(* ===================================================================== *)

(** [error_details] (always [{}] on the paths below) and the creation
    [timestamp] are not kept. *)
Record ServiceResult := mkServiceResult {
  success : bool;
  data : pyval;
  error : option string
}.

Definition failed (r : ServiceResult) : bool := negb (success r).

(** [ServiceResult(True, d)] and [ServiceResult(False, error=m)]. *)
Definition result_ok (d : pyval) : ServiceResult := mkServiceResult true d None.
Definition result_error (m : string) : ServiceResult :=
  mkServiceResult false PNone (Some m).

Definition of_result (r : ServiceResult) : pyval :=
  PResult (success r) (data r) (error r).

(* ===================================================================== *)
(** ** The object heap *)
(* ===================================================================== *)

Definition loc := nat.

(** One recorded observation: the dict built in [record_metric]. *)
Record Metric := mkMetric {
  duration : Z;
  timestamp : Z;
  m_success : bool;
  metadata : gmap string pyval
}.

(** [dicts] holds the dict objects whose values are lists of metrics
    (by location), [lists] the list objects.  [next] is the next unused
    location; nothing is ever freed. *)
Record Heap := mkHeap {
  next : loc;
  dicts : gmap loc (gmap string loc);
  lists : gmap loc (list Metric)
}.

Definition empty_heap : Heap := mkHeap 0 ∅ ∅.

Definition alloc_dict (d : gmap string loc) (h : Heap) : loc * Heap :=
  (next h, mkHeap (S (next h)) (<[next h := d]> (dicts h)) (lists h)).

Definition alloc_list (l : list Metric) (h : Heap) : loc * Heap :=
  (next h, mkHeap (S (next h)) (dicts h) (<[next h := l]> (lists h))).

Definition read_dict (r : loc) (h : Heap) : gmap string loc :=
  default ∅ (dicts h !! r).

Definition read_list (r : loc) (h : Heap) : list Metric :=
  default [] (lists h !! r).

Definition write_dict (r : loc) (d : gmap string loc) (h : Heap) : Heap :=
  mkHeap (next h) (<[r := d]> (dicts h)) (lists h).

Definition write_list (r : loc) (l : list Metric) (h : Heap) : Heap :=
  mkHeap (next h) (dicts h) (<[r := l]> (lists h)).

(** Every location stored anywhere has been allocated. *)
Definition heap_wf (h : Heap) : Prop :=
  (∀ r d, dicts h !! r = Some d →
          r < next h ∧ ∀ (k : string) (l : loc), d !! k = Some l → l < next h) ∧
  (∀ r l, lists h !! r = Some l → r < next h).

(* ===================================================================== *)
(** ** The world: external state and heap; the coroutine monad *)
(* ===================================================================== *)

(** The external world [E] (generators, persistence, the passing of time)
    is left abstract; only the clock can be read from it. *)
Class Clock (E : Type) := time_now : E → Z.

Record World (E : Type) := mkWorld {
  ext : E;
  heap : Heap
}.
Arguments mkWorld {E} ext heap.
Arguments ext {E} w.
Arguments heap {E} w.

Definition M (E A : Type) : Type := World E → outcome A * World E.

Definition ret {E A} (a : A) : M E A := fun w => (Returned a, w).

Definition raise {E A} (e : exn) : M E A := fun w => (Raised e, w).

Definition bind {E A B} (m : M E A) (k : A → M E B) : M E B :=
  fun w =>
    match m w with
    | (Returned a, w') => k a w'
    | (Raised e, w') => (Raised e, w')
    end.

#[global] Instance M_ret {E} : MRet (M E) := @ret E.
#[global] Instance M_bind {E} : MBind (M E) := fun A B k m => bind m k.

(** Lift a pure outcome. *)
Definition lift {E A} (o : outcome A) : M E A := fun w => (o, w).

(** An action of the external world: it cannot touch the heap. *)
Definition external {E A} (f : E → outcome A * E) : M E A :=
  fun w => let '(o, e') := f (ext w) in (o, mkWorld e' (heap w)).

(** An action on the heap alone. *)
Definition on_heap {E A} (f : Heap → outcome A * Heap) : M E A :=
  fun w => let '(o, h') := f (heap w) in (o, mkWorld (ext w) h').

(** [time.time()] / [datetime.now()]. *)
Definition time_time {E} `{Clock E} : M E Z :=
  fun w => (Returned (time_now (ext w)), w).

(** [try: body / except Exception as e: handler e]. *)
Definition try_except {E A} (body : M E A) (handler : exn → M E A) : M E A :=
  fun w =>
    match body w with
    | (Raised e, w') => if is_Exception e then handler e w' else (Raised e, w')
    | r => r
    end.

(** [try: body / finally: fin]; an exception of [fin] replaces the
    outcome of [body]. *)
Definition try_finally {E A} (body : M E A) (fin : outcome A → M E unit) : M E A :=
  fun w =>
    let '(o, w1) := body w in
    match fin o w1 with
    | (Returned _, w2) => (o, w2)
    | (Raised e, w2) => (Raised e, w2)
    end.

(* ===================================================================== *)
(** ** [MetricsCollector] (source/layers/middleware/monitoring.py) *)
(* ===================================================================== *)

Module MetricsCollector.

(** The object: [self.metrics] is a location of a dict on the heap.
    [self._lock] makes each method atomic; a method is one step here. *)
Record t := mk { metrics : loc }.

(** [__init__]: [self.metrics = defaultdict(list)]. *)
Definition init (h : Heap) : t * Heap :=
  let '(r, h') := alloc_dict ∅ h in (mk r, h').

(** [self.metrics[operation]] on a [defaultdict(list)]: a missing key is
    first bound to a new empty list. *)
Definition defaultdict_getitem (self : t) (operation : string) (h : Heap)
  : loc * Heap :=
  let d := read_dict (metrics self) h in
  match d !! operation with
  | Some l => (l, h)
  | None =>
      let '(l, h1) := alloc_list [] h in
      (l, write_dict (metrics self) (<[operation := l]> d) h1)
  end.

(** [record_metric(operation, duration, success, metadata=None)]. *)
Definition record_metric_at (now : Z) (self : t) (operation : string)
    (dur : Z) (ok : bool) (md : option (gmap string pyval)) (h : Heap)
  : outcome unit * Heap :=
  let '(l, h1) := defaultdict_getitem self operation h in
  let entry := mkMetric dur now ok (default ∅ md) in
  (Returned tt, write_list l (read_list l h1 ++ [entry]) h1).

Definition record_metric {E} `{Clock E} (self : t) (operation : string)
    (dur : Z) (ok : bool) (md : option (gmap string pyval)) : M E unit :=
  fun w =>
    let '(o, h') := record_metric_at (time_now (ext w)) self operation dur ok md (heap w) in
    (o, mkWorld (ext w) h').

(** [dict(l)] for a list [l] of metric dicts.  [dict] of an iterable
    wants every element to be a pair; an element here is a dict with the
    four keys [duration], [timestamp], [success], [metadata]. *)
Definition dict_of_metric_list (l : list Metric) : outcome (gmap string loc) :=
  match l with
  | [] => Returned ∅
  | _ :: _ =>
      Raised (ValueError
        "dictionary update sequence element #0 has length 4; 2 is required")
  end.

(** [if operation:] for [operation : Optional[str]]. *)
Definition given (operation : option string) : option string :=
  match operation with
  | Some s => if truthy (PStr s) then Some s else None
  | None => None
  end.

(** [get_metrics(operation=None)]: returns the location of a new dict. *)
Definition get_metrics (self : t) (operation : option string) (h : Heap)
  : outcome loc * Heap :=
  match given operation with
  | Some op =>
      let '(l, h1) := defaultdict_getitem self op h in
      match dict_of_metric_list (read_list l h1) with
      | Returned d => let '(r, h2) := alloc_dict d h1 in (Returned r, h2)
      | Raised e => (Raised e, h1)
      end
  | None =>
      let '(r, h1) := alloc_dict (read_dict (metrics self) h) h in
      (Returned r, h1)
  end.

(** [clear_metrics()]: [self.metrics.clear()]. *)
Definition clear_metrics (self : t) (h : Heap) : outcome unit * Heap :=
  (Returned tt, write_dict (metrics self) ∅ h).

(** What a caller can observe of the collector: for every operation in
    the store, the metrics currently in its list. *)
Definition observe (self : t) (h : Heap) : gmap string (list Metric) :=
  (fun l => read_list l h) <$> read_dict (metrics self) h.

(** The content of a mapping returned by [get_metrics]. *)
Definition view (r : loc) (h : Heap) : gmap string (list Metric) :=
  (fun l => read_list l h) <$> read_dict r h.

(** The collector owns an allocated dict of the heap, and no list is
    stored under two operations. *)
Definition wf (self : t) (h : Heap) : Prop :=
  heap_wf h ∧ is_Some (dicts h !! metrics self) ∧
  ∀ (k1 k2 : string) (l : loc),
    read_dict (metrics self) h !! k1 = Some l →
    read_dict (metrics self) h !! k2 = Some l → k1 = k2.

(** What a caller can do with a mapping [r] it was handed. *)
Inductive mutation :=
  | SetItem (r : loc) (k : string) (l : loc)   (* r[k] = <list at l> *)
  | DelItem (r : loc) (k : string)             (* del r[k] *)
  | Clear (r : loc)                            (* r.clear() *)
  | Append (r : loc) (k : string) (m : Metric) (* r[k].append(m) *)
  | ListClear (r : loc) (k : string).          (* r[k].clear() *)

Definition mutate (mu : mutation) (h : Heap) : Heap :=
  match mu with
  | SetItem r k l => write_dict r (<[k := l]> (read_dict r h)) h
  | DelItem r k => write_dict r (delete k (read_dict r h)) h
  | Clear r => write_dict r ∅ h
  | Append r k m =>
      match read_dict r h !! k with
      | Some l => write_list l (read_list l h ++ [m]) h
      | None => h
      end
  | ListClear r k =>
      match read_dict r h !! k with
      | Some l => write_list l [] h
      | None => h
      end
  end.

(** Mutations of the mapping object itself, as opposed to the lists
    stored in it. *)
Definition top_level (mu : mutation) : bool :=
  match mu with
  | SetItem _ _ _ | DelItem _ _ | Clear _ => true
  | Append _ _ _ | ListClear _ _ => false
  end.

Definition target (mu : mutation) : loc :=
  match mu with
  | SetItem r _ _ | DelItem r _ | Clear r | Append r _ _ | ListClear r _ => r
  end.

End MetricsCollector.

(* ===================================================================== *)
(** ** Coroutine functions and the monitors (monitoring.py) *)
(* ===================================================================== *)

(** A callable handed to a monitor: its [__name__] and what awaiting
    [func] on positional [args] and keyword [kwargs] yields. *)
Record Coroutine (E R : Type) := mkCoroutine {
  co_name : string;
  co_call : list pyval → gmap string pyval → M E R
}.
Arguments mkCoroutine {E R} co_name co_call.
Arguments co_name {E R} c.
Arguments co_call {E R} c args kwargs.

(** The [success] local of the wrappers: [True] at first, set to [False]
    only by the [except Exception] clause. *)
Definition success_flag {R} (o : outcome R) : bool :=
  match o with
  | Returned _ => true
  | Raised e => negb (is_Exception e)
  end.

Module PerformanceMonitor.

Record t := mk { metrics_collector : MetricsCollector.t }.

Definition init (h : Heap) : t * Heap :=
  let '(c, h') := MetricsCollector.init h in (mk c, h').

(** [monitor(operation_name)(func)] called on [args], [kwargs]: [async_wrapper]
    and [sync_wrapper] have the same body. *)
Definition monitor {E R} `{Clock E} (self : t) (operation_name : string)
    (func : Coroutine E R) (args : list pyval) (kwargs : gmap string pyval)
  : M E R :=
  start_time ← time_time;
  try_finally
    (try_except (co_call func args kwargs) (fun e => raise e))
    (fun o =>
       now ← time_time;
       MetricsCollector.record_metric (metrics_collector self)
         operation_name (now - start_time)%Z (success_flag o) None).

End PerformanceMonitor.

Module ResourceMonitor.

(** [max_workers] is the initial value of [asyncio.Semaphore]. *)
Record t := mk {
  max_workers : nat;
  metrics_collector : MetricsCollector.t
}.

Definition init (max_workers : nat) (h : Heap) : t * Heap :=
  let '(c, h') := MetricsCollector.init h in (mk max_workers c, h').

(** The [finally] clause: one metric under [func.__name__]. *)
Definition finalize {E R} `{Clock E} (self : t) (func : Coroutine E R)
    (args : list pyval) (kwargs : gmap string pyval) (start_time : Z)
    (o : outcome R) : M E unit :=
  now ← time_time;
  MetricsCollector.record_metric (metrics_collector self)
    (co_name func) (now - start_time)%Z (success_flag o)
    (Some {[ "args" := PRepr args ∅; "kwargs" := PRepr [] kwargs ]}).

(** The block under [async with self.semaphore:], for a call that holds
    a slot.  Every keyword argument, [timeout] and [max_retries]
    included, goes to [func]. *)
Definition monitored {E R} `{Clock E} (self : t) (func : Coroutine E R)
    (args : list pyval) (kwargs : gmap string pyval) : M E R :=
  start_time ← time_time;
  try_finally
    (try_except (co_call func args kwargs) (fun e => raise e))
    (finalize self func args kwargs start_time).

(** [execute_with_monitoring(func, args..., kwargs...)] as seen by one
    caller that is admitted: the slot is taken on entry and given back
    on exit.  The semaphore and the interleaving of several callers are
    not part of the embedding. *)
Definition execute_with_monitoring {E R} `{Clock E} (self : t)
    (func : Coroutine E R) (args : list pyval) (kwargs : gmap string pyval)
  : M E R :=
  monitored self func args kwargs.

End ResourceMonitor.

(* ===================================================================== *)
(** ** Dict helpers used by the services *)
(* ===================================================================== *)

(** [d[k]] on a dict literal or a settings category. *)
Definition dict_getitem (d : gmap string pyval) (k : string) : outcome pyval :=
  match d !! k with
  | Some x => Returned x
  | None => Raised (KeyError k)
  end.

(** The name of the class of a value, as error messages give it. *)
Definition type_name (v : pyval) : string :=
  match v with
  | PNone => "NoneType"
  | PInt _ => "int"
  | PStr _ | PRepr _ _ => "str"
  | PList _ => "list"
  | PDict _ => "dict"
  | PContent _ => "Content"
  | PObject _ => "object"
  | PResult _ _ _ => "ServiceResult"
  end.

(** One element of the sequence handed to [dict.update]: an iterable of
    two items, the key and the value.  A string of two characters is
    one, and so is a dict of two keys (its keys, here in the order the
    map lists them). *)
Definition update_item (i : nat) (item : pyval) : outcome (pyval * pyval) :=
  let wrong_length (n : nat) : outcome (pyval * pyval) :=
    Raised (ValueError ("dictionary update sequence element #" +:+ pretty i
                        +:+ " has length " +:+ pretty n +:+ "; 2 is required")) in
  match item with
  | PList [k; v] => Returned (k, v)
  | PList l => wrong_length (length l)
  | PStr (String a (String b EmptyString)) =>
      Returned (PStr (String a EmptyString), PStr (String b EmptyString))
  | PStr s => wrong_length (String.length s)
  | PDict d =>
      match map_to_list d with
      | [(k1, _); (k2, _)] => Returned (PStr k1, PStr k2)
      | l => wrong_length (length l)
      end
  | _ => Raised (TypeError ("cannot convert dictionary update sequence element #"
                            +:+ pretty i +:+ " to a sequence"))
  end.

(** [context[k] = v] for a key of the sequence.  A list or a dict is not
    hashable; a key that is not a string makes an entry that [PDict] does
    not hold. *)
Definition update_key (context : gmap string pyval) (k v : pyval)
  : outcome (gmap string pyval) :=
  match k with
  | PStr s => Returned (<[s := v]> context)
  | PList _ | PDict _ =>
      Raised (TypeError ("unhashable type: '" +:+ type_name k +:+ "'"))
  | _ => Returned context
  end.

Fixpoint update_items (context : gmap string pyval) (i : nat)
    (items : list pyval) : outcome (gmap string pyval) :=
  match items with
  | [] => Returned context
  | item :: rest =>
      '(k, v) ← update_item i item;
      context ← update_key context k v;
      update_items context (S i) rest
  end.

(** [context.update(other)].  A mapping gives its entries: keys of
    [other] are added, keys already in [context] take the value of
    [other].  Any other iterable is read as a sequence of pairs, so
    [update([])] and [update('')] change nothing and the characters of a
    longer string are too short to be pairs; what is not iterable raises. *)
Definition dict_update (context : gmap string pyval) (other : pyval)
  : outcome (gmap string pyval) :=
  match other with
  | PDict d => Returned (d ∪ context)
  | PList items => update_items context 0 items
  | PStr EmptyString => Returned context
  | PStr _ | PRepr _ _ =>
      Raised (ValueError
        "dictionary update sequence element #0 has length 1; 2 is required")
  | _ => Raised (TypeError ("'" +:+ type_name other +:+ "' object is not iterable"))
  end.

(** [all(field in d for field in fields)]. *)
Definition has_fields (fields : list string) (d : gmap string pyval) : bool :=
  forallb (fun f => bool_decide (is_Some (d !! f))) fields.

(** [SettingsManager.get_category]: a copy of the category, [{}] if absent. *)
Definition get_category (settings : gmap string (gmap string pyval))
    (category : string) : gmap string pyval :=
  default ∅ (settings !! category).

(* ===================================================================== *)
(** ** Calls, [await] and [async with] *)
(* ===================================================================== *)

#[global] Instance pyval_inhabited : Inhabited pyval := populate PNone.

Definition quoted (s : string) : string := "'" +:+ s +:+ "'".

(** A [gmap] keeps no insertion order, and Python reads the keywords of a
    call in the order in which they are written.  The calls of the
    repository that forward keywords write [timeout] before [max_retries]
    (enhanced_services.py, 91-118): [keywords_in_order] lists these two
    first, in that order, and the other keywords after them as the map
    lists them. *)
Definition keywords_in_order (kwargs : gmap string pyval) : list string :=
  let written : list string := ["timeout"; "max_retries"] in
  List.filter (fun k => bool_decide (is_Some (kwargs !! k))) written ++
  List.filter (fun k => negb (bool_decide (k ∈@{list string} written)))
    (map fst (map_to_list kwargs)).

Fixpoint index_of (x : string) (l : list string) : option nat :=
  match l with
  | [] => None
  | y :: l' => if String.eqb x y then Some 0 else S <$> index_of x l'
  end.

(** The parameters left without a value, as the message names them. *)
Definition name_list (names : list string) : string :=
  match names with
  | [] => ""
  | [a] => quoted a
  | [a; b] => quoted a +:+ " and " +:+ quoted b
  | _ => String.concat ", " (map quoted (removelast names)) +:+ ", and "
         +:+ quoted (List.last names "")
  end.

(** The binding of a call [m(args..., kwargs...)] of the bound method
    [qualname], whose parameters after [self] are [params], none with a
    default; [var_keywords] tells whether the signature ends in
    [**options].  The checks come in the order of CPython: the keywords
    one by one, then the number of positional arguments, then the
    parameters left without a value.  The answer holds the argument of
    every parameter. *)
Definition bind_arguments (qualname : string) (params : list string)
    (var_keywords : bool) (args : list pyval) (kwargs : gmap string pyval)
  : outcome (gmap string pyval) :=
  let keyword_error (k : string) : option exn :=
    match index_of k params with
    | None =>
        if var_keywords then None
        else Some (TypeError (qualname +:+
                     "() got an unexpected keyword argument " +:+ quoted k))
    | Some i =>
        if bool_decide (i < length args)
        then Some (TypeError (qualname +:+
                     "() got multiple values for argument " +:+ quoted k))
        else None
    end in
  match omap keyword_error (keywords_in_order kwargs) with
  | e :: _ => Raised e
  | [] =>
      if bool_decide (length params < length args)
      then Raised (TypeError (qualname +:+ "() takes "
                     +:+ pretty (S (length params))
                     +:+ " positional arguments but "
                     +:+ pretty (S (length args)) +:+ " were given"))
      else
        let bound : gmap string pyval :=
          list_to_map (zip params args) ∪
          list_to_map (omap (fun p => (p,.) <$> kwargs !! p) params) in
        match List.filter (fun p => negb (bool_decide (is_Some (bound !! p))))
                params with
        | [] => Returned bound
        | missing =>
            Raised (TypeError (qualname +:+ "() missing "
                      +:+ pretty (length missing)
                      +:+ " required positional argument"
                      +:+ (if bool_decide (length missing = 1) then "" else "s")
                      +:+ ": " +:+ name_list missing))
        end
  end.

(** [await r] for a [ServiceResult] [r]: the class has no [__await__], so
    the expression raises whatever [r] is. *)
Definition await_service_result {E} (r : ServiceResult) : M E ServiceResult :=
  raise (TypeError "object ServiceResult can't be used in 'await' expression").

(** What [async with] finds in the object it is handed: the methods
    [__aenter__] and [__aexit__], or an object of class [cls] without
    them. *)
Inductive async_manager (E T : Type) :=
  | Manager (aenter : M E T) (aexit : T → M E unit)
  | NoManager (cls : string).
Arguments Manager {E T} aenter aexit.
Arguments NoManager {E T} cls.

(** [async with manager as x: body x], for an [__aexit__] that returns
    [None]. *)
Definition async_with {E T A} (manager : async_manager E T) (body : T → M E A)
  : M E A :=
  match manager with
  | Manager aenter aexit =>
      x ← aenter; try_finally (body x) (fun _ => aexit x)
  | NoManager cls =>
      raise (TypeError (quoted cls +:+
        " object does not support the asynchronous context manager protocol"))
  end.

(* ===================================================================== *)
(** ** [ContentCreationService] (source/apps/content/services.py) *)
(* ===================================================================== *)

Module ContentCreationService.
Section Service.
Context {E : Type}.

(** The injected collaborators.  [content_gen] and [voiceover_gen]
    stand for awaiting [generate_script(content_type, max_retries=,
    timeout=)] and [generate_voiceover(script, max_retries=,
    timeout=)]; [validate_asset] and [process_single_asset] for
    [_validate_asset] and [_process_single_asset], which end in the
    mime sniffer and the media processors. *)
Record t := mk {
  content_gen : pyval → pyval → pyval → E → outcome ServiceResult * E;
  voiceover_gen : pyval → pyval → pyval → E → outcome ServiceResult * E;
  settings : gmap string (gmap string pyval);
  validate_asset : pyval → gmap string pyval → E → bool * E;
  process_single_asset :
    pyval → gmap string pyval → E → outcome ServiceResult * E
}.

(** [_generate_script(self, context)]. *)
Definition _generate_script (self : t) (context : pyval) : M E ServiceResult :=
  try_except
    (request ← lift (py_getitem context "request");
     content_type ← lift (py_get request "content_type");
     let ai_settings := get_category (settings self) "ai" in
     max_retries ← lift (dict_getitem ai_settings "max_retries");
     timeout ← lift (dict_getitem ai_settings "timeout");
     script_result ← external (content_gen self content_type max_retries timeout);
     if failed script_result then mret script_result
     else
       script ← lift (py_getitem (data script_result) "script");
       metrics ← lift (py_getitem (data script_result) "metrics");
       mret (result_ok (PDict {[ "script" := script;
                                 "script_metrics" := metrics ]})))
    (fun e => mret (result_error (exn_str e))).

(** [_generate_voiceover(self, context)]. *)
Definition _generate_voiceover (self : t) (context : pyval) : M E ServiceResult :=
  try_except
    (script ← lift (py_get context "script");
     if negb (truthy script)
     then mret (result_error "Script not found in context")
     else
       let ai_settings := get_category (settings self) "ai" in
       max_retries ← lift (dict_getitem ai_settings "max_retries");
       timeout ← lift (dict_getitem ai_settings "timeout");
       voiceover_result ← external (voiceover_gen self script max_retries timeout);
       if failed voiceover_result then mret voiceover_result
       else
         audio ← lift (py_getitem (data voiceover_result) "audio");
         metrics ← lift (py_getitem (data voiceover_result) "metrics");
         mret (result_ok (PDict {[ "voiceover" := audio;
                                   "voiceover_metrics" := metrics ]})))
    (fun e => mret (result_error (exn_str e))).

(** The [for asset in content.assets.all():] loop. *)
Fixpoint process_each (self : t) (asset_settings : gmap string pyval)
    (assets : list pyval) (processed_assets : list pyval)
  : M E (list pyval) :=
  match assets with
  | [] => mret processed_assets
  | asset :: rest =>
      valid ← external (fun e =>
                 let '(b, e') := validate_asset self asset asset_settings e in
                 (Returned b, e'));
      if negb valid then process_each self asset_settings rest processed_assets
      else
        processed_result ← external (process_single_asset self asset asset_settings);
        process_each self asset_settings rest
          (if success processed_result
           then processed_assets ++ [data processed_result]
           else processed_assets)
  end.

(** [content.assets.all()], iterated inside the coroutine.  For a
    [Content] row this is a query of the ORM, which django refuses to run
    in a thread that has a running event loop; another object has no
    [assets]. *)
Definition assets_all (content : pyval) : outcome (list pyval) :=
  match content with
  | PContent _ =>
      Raised (Exc "SynchronousOnlyOperation"
        "You cannot call this from an async context - use a thread or sync_to_async.")
  | _ => Raised (AttributeError (quoted (type_name content) +:+
                   " object has no attribute 'assets'"))
  end.

(** [_process_assets(self, context)]. *)
Definition _process_assets (self : t) (context : pyval) : M E ServiceResult :=
  try_except
    (let asset_settings := get_category (settings self) "asset" in
     content ← lift (py_get context "content");
     if negb (truthy content)
     then mret (result_error "Content not found in context")
     else
       assets ← lift (assets_all content);
       processed_assets ← process_each self asset_settings assets [];
       mret (result_ok (PDict {[ "processed_assets" := PList processed_assets ]})))
    (fun e => mret (result_error (exn_str e))).

(** The bound methods, as handed to the resource monitor.  Each one
    declares the single parameter [context]: a call that carries any
    other keyword, as the [timeout=] and [max_retries=] that the monitor
    forwards, raises before the body starts. *)
Definition generate_script_method (self : t) : Coroutine E ServiceResult :=
  mkCoroutine "_generate_script"
    (fun args kwargs =>
       locals ← lift (bind_arguments "ContentCreationService._generate_script"
                        ["context"] false args kwargs);
       _generate_script self (locals !!! "context")).

Definition generate_voiceover_method (self : t) : Coroutine E ServiceResult :=
  mkCoroutine "_generate_voiceover"
    (fun args kwargs =>
       locals ← lift (bind_arguments "ContentCreationService._generate_voiceover"
                        ["context"] false args kwargs);
       _generate_voiceover self (locals !!! "context")).

Definition process_assets_method (self : t) : Coroutine E ServiceResult :=
  mkCoroutine "_process_assets"
    (fun args kwargs =>
       locals ← lift (bind_arguments "ContentCreationService._process_assets"
                        ["context"] false args kwargs);
       _process_assets self (locals !!! "context")).

End Service.
Arguments t E : clear implicits.
End ContentCreationService.

(* ===================================================================== *)
(** ** [EnhancedContentCreationService] (enhanced_services.py) *)
(* ===================================================================== *)

Module EnhancedContentCreationService.
Section Service.
Context {E : Type} `{Clock E}.

(** The object with its stage methods: [self._generate_script] and
    its siblings are looked up on the instance.  The class overrides none
    of them: [inherit] gives the ones of [ContentCreationService], which
    are the ones an instance of the repository has. *)
Record t := mk {
  _generate_script : Coroutine E ServiceResult;
  _generate_voiceover : Coroutine E ServiceResult;
  _process_assets : Coroutine E ServiceResult;
  settings : gmap string (gmap string pyval);
  performance_monitor : PerformanceMonitor.t;
  resource_monitor : ResourceMonitor.t
}.

Definition inherit (base : ContentCreationService.t E)
    (pm : PerformanceMonitor.t) (rm : ResourceMonitor.t) : t :=
  mk (ContentCreationService.generate_script_method base)
     (ContentCreationService.generate_voiceover_method base)
     (ContentCreationService.process_assets_method base)
     (ContentCreationService.settings base) pm rm.

(** [_validate_content_request]. *)
Definition _validate_content_request (request : gmap string pyval) : bool :=
  has_fields ["content_type"; "title"] request.

(** The keywords that [_execute_pipeline] adds to every monitored call. *)
Definition forwarded (max_retries timeout : pyval) : gmap string pyval :=
  {[ "timeout" := timeout; "max_retries" := max_retries ]}.

(** The body of [_execute_pipeline(self, request, max_retries, timeout)]:
    the value it returns, together with the local [context] as it stands
    at that [return]. *)
Definition execute_pipeline_body (self : t) (request : pyval)
    (max_retries timeout : pyval) : M E (ServiceResult * gmap string pyval) :=
  let context : gmap string pyval := {[ "request" := request ]} in
  (* Generate script *)
  script_result ← ResourceMonitor.execute_with_monitoring
                    (resource_monitor self) (_generate_script self)
                    [PDict context] (forwarded max_retries timeout);
  if failed script_result then mret (script_result, context)
  else
    context ← lift (dict_update context (data script_result));
    (* Generate voiceover *)
    voiceover_result ← ResourceMonitor.execute_with_monitoring
                         (resource_monitor self) (_generate_voiceover self)
                         [PDict context] (forwarded max_retries timeout);
    if failed voiceover_result then mret (voiceover_result, context)
    else
      context ← lift (dict_update context (data voiceover_result));
      (* Process assets *)
      assets_result ← ResourceMonitor.execute_with_monitoring
                        (resource_monitor self) (_process_assets self)
                        [PDict context] (forwarded max_retries timeout);
      if failed assets_result then mret (assets_result, context)
      else
        context ← lift (dict_update context (data assets_result));
        mret (result_ok (PDict context), context).

(** [_execute_pipeline(self, request, max_retries, timeout)]. *)
Definition _execute_pipeline (self : t) (request : pyval)
    (max_retries timeout : pyval) : M E ServiceResult :=
  returned ← execute_pipeline_body self request max_retries timeout;
  mret (fst returned).

Definition execute_pipeline_method (self : t) : Coroutine E ServiceResult :=
  mkCoroutine "_execute_pipeline"
    (fun args kwargs =>
       locals ← lift (bind_arguments
                        "EnhancedContentCreationService._execute_pipeline"
                        ["request"; "max_retries"; "timeout"] false args kwargs);
       _execute_pipeline self (locals !!! "request")
         (locals !!! "max_retries") (locals !!! "timeout")).

(** [create_content_with_pipeline(self, request)]. *)
Definition create_content_with_pipeline (self : t)
    (request : gmap string pyval) : M E ServiceResult :=
  let content_settings := get_category (settings self) "content" in
  max_retries ← lift (dict_getitem content_settings "max_retries");
  timeout ← lift (dict_getitem content_settings "processing_timeout");
  if negb (_validate_content_request request)
  then mret (result_error "Invalid request")
  else
    PerformanceMonitor.monitor (performance_monitor self)
      "create_content_pipeline" (execute_pipeline_method self)
      [PDict request; max_retries; timeout] ∅.

End Service.
Arguments t E : clear implicits.
End EnhancedContentCreationService.

(* ===================================================================== *)
(** ** The batch helpers of the AI utilities (source/layers/ai) *)
(* ===================================================================== *)

(** [for x in v] over a list value. *)
Definition py_iter (v : pyval) : outcome (list pyval) :=
  match v with
  | PList l => Returned l
  | _ => Raised (TypeError "object is not iterable")
  end.

(** [result.data if result.success else None]. *)
Definition data_or_none (r : ServiceResult) : pyval :=
  if success r then data r else PNone.

Module ContentGenerationUtility.

(** [generate_script(content_type, custom_parameters)] answers with a
    [ServiceResult] on every path; the answer comes from the external
    text model and is a parameter here. *)
Record t := mk { generate_script : pyval → pyval → ServiceResult }.

(** The submit loop: the arguments of every call are read first. *)
Fixpoint submit_all (self : t) (configs : list pyval)
  : outcome (list ServiceResult) :=
  match configs with
  | [] => Returned []
  | config :: rest =>
      content_type ← py_getitem config "content_type";
      parameters ← py_get config "parameters";
      futures ← submit_all self rest;
      Returned (generate_script self content_type parameters :: futures)
  end.

(** [batch_generate_scripts(configs)]. *)
Definition batch_generate_scripts (self : t) (configs : list pyval)
  : ServiceResult :=
  match submit_all self configs with
  | Returned futures => result_ok (PList (map data_or_none futures))
  | Raised e =>
      mkServiceResult false PNone
        (Some ("Batch script generation failed: " +:+ exn_str e))
  end.

End ContentGenerationUtility.

Module VoiceoverGenerationUtility.

(** [generate_voiceover(text, voice_id, model_id)], which answers with a
    [ServiceResult] on every path as well. *)
Record t := mk { generate_voiceover : pyval → pyval → pyval → ServiceResult }.

Fixpoint submit_all (self : t) (texts : list pyval)
  : outcome (list ServiceResult) :=
  match texts with
  | [] => Returned []
  | config :: rest =>
      text ← py_getitem config "text";
      voice_id ← py_get config "voice_id";
      model_id ← match config with
                 | PDict d => Returned (default (PStr "eleven_multilingual_v2")
                                                (d !! "model_id"))
                 | _ => Raised (AttributeError "object has no attribute 'get'")
                 end;
      futures ← submit_all self rest;
      Returned (generate_voiceover self text voice_id model_id :: futures)
  end.

(** [batch_generate_voiceovers(texts)]. *)
Definition batch_generate_voiceovers (self : t) (texts : list pyval)
  : ServiceResult :=
  match submit_all self texts with
  | Returned futures => result_ok (PList (map data_or_none futures))
  | Raised e =>
      mkServiceResult false PNone
        (Some ("Batch voiceover generation failed: " +:+ exn_str e))
  end.

End VoiceoverGenerationUtility.

(* ===================================================================== *)
(** ** [ContentManagementService] (services.py) *)
(* ===================================================================== *)

Module ContentManagementService.
Section Service.
Context {E : Type}.

(** [objects_create] stands for [Content.objects.create(...)]. *)
Record t := mk {
  objects_create : gmap string pyval → E → outcome pyval * E
}.

Definition is_str (v : pyval) : bool :=
  match v with PStr _ | PRepr _ _ => true | _ => false end.

Definition is_dict (v : pyval) : bool :=
  match v with PDict _ => true | _ => false end.

Definition is_status (v : pyval) : bool :=
  match v with
  | PStr s => bool_decide (s ∈ ["draft"; "published"; "archived"])
  | _ => false
  end.

(** [_validate(self, data)]. *)
Definition _validate (data : pyval) : outcome unit :=
  match data with
  | PDict d =>
      if negb (bool_decide (is_Some (d !! "content_type")))
      then Raised (ValidationError "Content type is required")
      else if negb (bool_decide (is_Some (d !! "title")))
      then Raised (ValidationError "Title is required")
      else if match d !! "script" with
              | Some v => negb (is_str v) | None => false end
      then Raised (ValidationError "Script must be a string")
      else if match d !! "status" with
              | Some v => negb (is_status v) | None => false end
      then Raised (ValidationError "Invalid content status")
      else if match d !! "metadata" with
              | Some v => negb (is_dict v) | None => false end
      then Raised (ValidationError "Metadata must be a dictionary")
      else Returned tt
  | _ => Raised (ValidationError "Input data must be a dictionary")
  end.

(** [_process_single_content(self, content_data)]: both [except]
    clauses build the same failure. *)
Definition _process_single_content (self : t) (content_data : pyval)
  : M E ServiceResult :=
  try_except
    (lift (_validate content_data);;
     content_type ← lift (py_getitem content_data "content_type");
     title ← lift (py_getitem content_data "title");
     let script := match content_data with
                   | PDict d => default (PStr "") (d !! "script")
                   | _ => PStr "" end in
     let status := match content_data with
                   | PDict d => default (PStr "draft") (d !! "status")
                   | _ => PStr "draft" end in
     let metadata := match content_data with
                     | PDict d => default (PDict ∅) (d !! "metadata")
                     | _ => PDict ∅ end in
     content ← external (objects_create self
                  {[ "content_type" := content_type; "title" := title;
                     "script" := script; "status" := status;
                     "metadata" := metadata ]});
     mret (result_ok (PDict {[ "content" := content ]})))
    (fun e => mret (result_error (exn_str e))).

(** The loop of [process_batch_content]. *)
Fixpoint process_each (self : t) (content_list : list pyval)
  : M E (list ServiceResult) :=
  match content_list with
  | [] => mret []
  | content_data :: rest =>
      result ← _process_single_content self content_data;
      results ← process_each self rest;
      mret (result :: results)
  end.

(** [process_batch_content(self, content_list)]. *)
Definition process_batch_content (self : t) (content_list : list pyval)
  : M E ServiceResult :=
  try_except
    (results ← process_each self content_list;
     mret (result_ok (PDict {[ "results" := PList (map of_result results) ]})))
    (fun e => mret (result_error (exn_str e))).

End Service.
Arguments t E : clear implicits.
End ContentManagementService.

(* ===================================================================== *)
(** ** [ContentOrchestrationService] (services.py) *)
(* ===================================================================== *)

Module ContentOrchestrationService.
Section Service.
Context {E : Type}.

Record t := mk {
  content_gen : ContentGenerationUtility.t;
  voiceover_gen : VoiceoverGenerationUtility.t;
  content_mgmt : ContentManagementService.t E
}.

(** [[{'text': result['script']} for result in data if result is not None]]. *)
Fixpoint voiceover_configs (script_data : list pyval) : outcome (list pyval) :=
  match script_data with
  | [] => Returned []
  | result :: rest =>
      match result with
      | PNone => voiceover_configs rest
      | _ =>
          script ← py_getitem result "script";
          configs ← voiceover_configs rest;
          Returned (PDict {[ "text" := script ]} :: configs)
      end
  end.

(** The [for i, config in enumerate(batch_config):] loop, from index
    [i] on; [script_data] and [voiceover_data] are
    [script_results.data] and [voiceover_results.data]. *)
Fixpoint content_items (script_data voiceover_data : pyval) (i : nat)
    (batch_config : list pyval) : outcome (list pyval) :=
  match batch_config with
  | [] => Returned []
  | config :: rest =>
      script_i ← py_index script_data i;
      keep ← (if truthy script_i
              then voiceover_i ← py_index voiceover_data i;
                   Returned (truthy voiceover_i)
              else Returned false);
      if keep : bool
      then
        title ← py_getitem config "title";
        content_type ← py_getitem config "content_type";
        script_i ← py_index script_data i;
        script ← py_getitem script_i "script";
        script_metrics ← py_getitem script_i "metrics";
        voiceover_i ← py_index voiceover_data i;
        audio ← py_getitem voiceover_i "audio";
        voiceover_metrics ← py_getitem voiceover_i "metrics";
        items ← content_items script_data voiceover_data (S i) rest;
        Returned (PDict {[ "title" := title;
                           "content_type" := content_type;
                           "script" := script;
                           "script_metrics" := script_metrics;
                           "voiceover" := audio;
                           "voiceover_metrics" := voiceover_metrics ]}
                  :: items)
      else content_items script_data voiceover_data (S i) rest
  end.

(** [create_content_batch(self, batch_config)].  [batch_generate_scripts]
    and [batch_generate_voiceovers] are plain functions: each call runs
    and returns its [ServiceResult], and that is what [await] is applied
    to. *)
Definition create_content_batch (self : t) (batch_config : list pyval)
  : M E ServiceResult :=
  try_except
    ((* Generate scripts in parallel *)
     script_results ← await_service_result
                        (ContentGenerationUtility.batch_generate_scripts
                           (content_gen self) batch_config);
     if failed script_results then mret script_results
     else
       (* Generate voiceovers in parallel *)
       script_data ← lift (py_iter (data script_results));
       configs ← lift (voiceover_configs script_data);
       voiceover_results ← await_service_result
                             (VoiceoverGenerationUtility.batch_generate_voiceovers
                                (voiceover_gen self) configs);
       if failed voiceover_results then mret voiceover_results
       else
         (* Create content items *)
         items ← lift (content_items (data script_results)
                         (data voiceover_results) 0 batch_config);
         (* Process content items *)
         results ← ContentManagementService.process_batch_content
                     (content_mgmt self) items;
         mret results)
    (fun e => mret (result_error (exn_str e))).

End Service.
Arguments t E : clear implicits.
End ContentOrchestrationService.

(* ===================================================================== *)
(** ** [EnhancedContentOrchestrationService] (enhanced_services.py) *)
(* ===================================================================== *)

(** [v[k] = x] on a dict value. *)
Definition py_setitem (v : pyval) (k : string) (x : pyval) : outcome pyval :=
  match v with
  | PDict d => Returned (PDict (<[k := x]> d))
  | _ => Raised (TypeError "object does not support item assignment")
  end.

Module EnhancedContentOrchestrationService.
Section Service.
Context {E : Type} `{Clock E}.

Record t := mk {
  base : ContentOrchestrationService.t E;
  performance_monitor : PerformanceMonitor.t
}.

(** The dict handed to [monitor.record_metrics] for an answer [result]
    of the base batch creation. *)
Definition batch_counts (batch_config : list pyval) (result : ServiceResult)
  : outcome (gmap string pyval) :=
  let total := Z.of_nat (length batch_config) in
  successful ← (if success result then py_len (data result) else Returned 0%Z);
  failed_count ← (if success result
                  then n ← py_len (data result); Returned (total - n)%Z
                  else Returned total);
  Returned ({[ "total" := PInt total;
               "successful" := PInt successful;
               "failed" := PInt failed_count ]} : gmap string pyval).

(** The [BatchMonitor] of [_batch_monitor]: [start_time] and the
    [metrics] dict. *)
Record BatchMonitor := mkBatchMonitor {
  start_time : Z;
  metrics : gmap string pyval
}.

(** [self._batch_monitor()].  [_batch_monitor] is an [async def]: the
    call gives a coroutine object; its body, which would build the
    [BatchMonitor], does not run. *)
Definition _batch_monitor : async_manager E BatchMonitor := NoManager "coroutine".

(** [_create_batch_with_monitoring(self, batch_config)]. *)
Definition _create_batch_with_monitoring (self : t) (batch_config : list pyval)
  : M E ServiceResult :=
  async_with _batch_monitor (fun monitor =>
    result ← ContentOrchestrationService.create_content_batch
               (base self) batch_config;
    counts ← lift (batch_counts batch_config result);
    let metrics := counts ∪ metrics monitor in
    if success result
    then
      data' ← lift (py_setitem (data result) "metrics" (PDict metrics));
      mret (mkServiceResult (success result) data' (error result))
    else mret result).

Definition create_batch_method (self : t) : Coroutine E ServiceResult :=
  mkCoroutine "_create_batch_with_monitoring"
    (fun args kwargs =>
       locals ← lift (bind_arguments
                        "EnhancedContentOrchestrationService._create_batch_with_monitoring"
                        ["batch_config"] false args kwargs);
       batch_config ← lift (py_iter (locals !!! "batch_config"));
       _create_batch_with_monitoring self batch_config).

(** [create_content_batch_with_monitoring(self, batch_config)]. *)
Definition create_content_batch_with_monitoring (self : t)
    (batch_config : list pyval) : M E ServiceResult :=
  PerformanceMonitor.monitor (performance_monitor self) "batch_creation"
    (create_batch_method self) [PList batch_config] ∅.

End Service.
Arguments t E : clear implicits.
End EnhancedContentOrchestrationService.

(* ===================================================================== *)
(** ** Notions used to state the properties *)
(* ===================================================================== *)

(** *** Counting invocations of a work function

    [counting func] runs [func] in a world that also carries a counter;
    nothing but a call of the work advances it. *)

#[global] Instance counting_clock {E} `{Clock E} : Clock (nat * E) :=
  fun ne => time_now (snd ne).

Definition counting {E R} (func : Coroutine E R) : Coroutine (nat * E) R :=
  mkCoroutine (co_name func)
    (fun args kwargs w =>
       let '(o, w1) := co_call func args kwargs (mkWorld (snd (ext w)) (heap w)) in
       (o, mkWorld (S (fst (ext w)), ext w1) (heap w1))).

(** The outcome is a timeout error. *)
Definition is_timeout {R} (o : outcome R) : bool :=
  match o with
  | Raised (Exc cls _) => bool_decide (cls = "TimeoutError")
  | _ => false
  end.

(** *** The pipeline *)


(** A stage method declared with the options the pipeline forwards,
    [async def m(self, context, **options)]: the keywords that name no
    parameter are gathered in [options], and [body] runs on the context. *)
Definition with_options {E} (name qualname : string)
    (body : pyval → M E ServiceResult) : Coroutine E ServiceResult :=
  mkCoroutine name
    (fun args kwargs =>
       locals ← lift (bind_arguments qualname ["context"] true args kwargs);
       body (locals !!! "context")).

(** A subclass of [EnhancedContentCreationService] that overrides the
    three stage methods with this signature, each one awaiting the method
    it overrides on the context.  The repository has no such subclass:
    it stands for an instance whose stage attributes can be called with
    the forwarded keywords. *)
Definition overriding {E} (base : ContentCreationService.t E)
    (pm : PerformanceMonitor.t) (rm : ResourceMonitor.t)
  : EnhancedContentCreationService.t E :=
  EnhancedContentCreationService.mk
    (with_options "_generate_script" "Overriding._generate_script"
       (ContentCreationService._generate_script base))
    (with_options "_generate_voiceover" "Overriding._generate_voiceover"
       (ContentCreationService._generate_voiceover base))
    (with_options "_process_assets" "Overriding._process_assets"
       (ContentCreationService._process_assets base))
    (ContentCreationService.settings base) pm rm.

(** *** Batches *)

(** The per-item outcomes in an answer: [result.data['results']]. *)
Definition batch_results (r : ServiceResult) : option (list pyval) :=
  match data r with
  | PDict d => match d !! "results" with
               | Some (PList l) => Some l
               | _ => None
               end
  | _ => None
  end.

(* ===================================================================== *)
(** ** Sample collaborators *)
(* ===================================================================== *)

(** A world whose only content is the clock. *)
#[global] Instance Z_clock : Clock Z := fun t => t.

(** A work function that needs 100 ticks and then returns. *)
Definition slow_work : Coroutine Z pyval :=
  mkCoroutine "slow_work"
    (fun _ _ w => (Returned (PStr "late"), mkWorld (ext w + 100)%Z (heap w))).

Definition sample_settings : gmap string (gmap string pyval) :=
  {[ "ai" := {[ "max_retries" := PInt 3; "timeout" := PInt 30 ]};
     "content" := {[ "max_retries" := PInt 3; "processing_timeout" := PInt 300 ]} ]}.

Definition sample_request : pyval :=
  PDict {[ "content_type" := PStr "short"; "title" := PStr "Launch" ]}.

Definition good_script : ServiceResult :=
  result_ok (PDict {[ "script" := PStr "Welcome."; "metrics" := PDict ∅ ]}).


Definition good_voiceover : ServiceResult :=
  result_ok (PDict {[ "audio" := PObject 7; "metrics" := PDict ∅ ]}).


(** A creation service whose generators give fixed answers after 5 ticks. *)
Definition sample_base (script voiceover : ServiceResult)
  : ContentCreationService.t Z :=
  ContentCreationService.mk
    (fun _ _ _ e => (Returned script, (e + 5)%Z))
    (fun _ _ _ e => (Returned voiceover, (e + 5)%Z))
    sample_settings
    (fun _ _ e => (true, e))
    (fun _ _ e => (Returned (result_ok (PObject 9)), e)).

Definition sample_monitors : PerformanceMonitor.t * ResourceMonitor.t * Heap :=
  let '(pm, h1) := PerformanceMonitor.init empty_heap in
  let '(rm, h2) := ResourceMonitor.init 4 h1 in
  (pm, rm, h2).

Definition sample_pm : PerformanceMonitor.t := fst (fst sample_monitors).
Definition sample_rm : ResourceMonitor.t := snd (fst sample_monitors).
Definition sample_world : World Z := mkWorld 0%Z (snd sample_monitors).

Definition sample_service (script voiceover : ServiceResult)
  : EnhancedContentCreationService.t Z :=
  EnhancedContentCreationService.inherit (sample_base script voiceover)
    sample_pm sample_rm.




(** An asset stage put in place of the inherited one: it takes whatever
    arguments it is called with and answers that there is no asset. *)
Definition lenient_assets : Coroutine Z ServiceResult :=
  mkCoroutine "_process_assets"
    (fun _ _ => mret (result_ok (PDict {[ "processed_assets" := PList [] ]}))).

(** A service of the subclass [overriding] over the sample generators,
    and the same service with [lenient_assets] as its asset stage. *)
Definition sample_overriding (script voiceover : ServiceResult)
  : EnhancedContentCreationService.t Z :=
  overriding (sample_base script voiceover) sample_pm sample_rm.

Definition lenient_service : EnhancedContentCreationService.t Z :=
  let s := sample_overriding good_script good_voiceover in
  EnhancedContentCreationService.mk
    (EnhancedContentCreationService._generate_script s)
    (EnhancedContentCreationService._generate_voiceover s)
    lenient_assets
    (EnhancedContentCreationService.settings s)
    (EnhancedContentCreationService.performance_monitor s)
    (EnhancedContentCreationService.resource_monitor s).










(** A batch configuration entry. *)
Definition sample_config (content_type : string) : pyval :=
  PDict {[ "content_type" := PStr content_type; "title" := PStr "Launch" ]}.

(** A script generator that writes the content type back as the script and
    fails for the content type [unknown]. *)
Definition sample_content_gen : ContentGenerationUtility.t :=
  ContentGenerationUtility.mk (fun content_type _ =>
    match content_type with
    | PStr "unknown" =>
        mkServiceResult false PNone (Some "Content type unknown not found")
    | _ => result_ok (PDict {[ "script" := content_type; "metrics" := PDict ∅ ]})
    end).

(** A voiceover generator that fails on the text [mute]. *)
Definition sample_voiceover_gen : VoiceoverGenerationUtility.t :=
  VoiceoverGenerationUtility.mk (fun text _ _ =>
    match text with
    | PStr "mute" =>
        mkServiceResult false PNone (Some "Voiceover generation failed: 503")
    | _ => result_ok (PDict {[ "audio" := PObject 7; "metrics" := PDict ∅ ]})
    end).

Definition sample_orchestration : ContentOrchestrationService.t Z :=
  ContentOrchestrationService.mk sample_content_gen sample_voiceover_gen
    (ContentManagementService.mk (fun _ e => (Returned (PObject 1), e))).

Definition sample_batch_service : EnhancedContentOrchestrationService.t Z :=
  EnhancedContentOrchestrationService.mk sample_orchestration sample_pm.

(** Three requests; the voiceover of the second one fails. *)
Definition sample_batch : list pyval :=
  [sample_config "intro"; sample_config "mute"; sample_config "outro"].

(** A collector with nothing recorded, and one after a first record. *)
Definition new_collector : MetricsCollector.t * Heap :=
  MetricsCollector.init empty_heap.

Definition sample_metric : Metric := mkMetric 5 0 true ∅.

Definition used_collector : MetricsCollector.t * Heap :=
  let '(c, h0) := new_collector in
  (c, snd (MetricsCollector.record_metric_at 0 c "render" 5 true None h0)).

Ltac unfold_monad :=
  unfold mbind, M_bind, bind, mret, M_ret, ret, lift, external, raise,
    try_except, try_finally, time_time in *.

Ltac unfold_outcome := unfold mbind, outcome_bind, mret, outcome_ret in *.

(* ===================================================================== *)
(** ** [TelemetryMiddleware] (monitoring.py) *)
(* ===================================================================== *)

Module TelemetryMiddleware.

(** What [__call__] reads of the request.  [client] is [None] when the
    server passes no peer address. *)
Record Request := mkRequest {
  method : string;
  url_path : string;
  client : option string;
  headers : gmap string string
}.

(** A response; [status_code] is absent on objects without the attribute. *)
Record Response := mkResponse {
  status_code : option pyval;
  body : pyval
}.

Record t := mk { metrics_collector : MetricsCollector.t }.

(** The metadata dict of the [finally] clause; [response] is still [None]
    when [call_next] raised. *)
Definition metadata_of (request : Request) (response : option Response)
  : outcome (gmap string pyval) :=
  let status := match response with
                | Some r => default PNone (status_code r)
                | None => PNone
                end in
  match client request with
  | Some host =>
      Returned {[ "status_code" := status;
                  "client_ip" := PStr host;
                  "user_agent" := match headers request !! "user-agent" with
                                  | Some ua => PStr ua
                                  | None => PNone
                                  end ]}
  | None => Raised (AttributeError "'NoneType' object has no attribute 'host'")
  end.

(** [__call__(self, request, call_next)]. *)
Definition __call__ {E} `{Clock E} (self : t) (request : Request)
    (call_next : Request → M E Response) : M E Response :=
  start_time ← time_time;
  try_finally
    (try_except (call_next request) (fun e => raise e))
    (fun o =>
       now ← time_time;
       md ← lift (metadata_of request
                    (match o with Returned r => Some r | Raised _ => None end));
       MetricsCollector.record_metric (metrics_collector self)
         (method request +:+ "_" +:+ url_path request)
         (now - start_time)%Z (success_flag o) (Some md)).

End TelemetryMiddleware.

(* ===================================================================== *)
(** ** Sequences of collector calls *)
(* ===================================================================== *)

(** One [record_metric] call: the clock reading, the operation, the
    duration, the flag and the metadata. *)
Record recording := mkRecording {
  rec_now : Z;
  rec_operation : string;
  rec_duration : Z;
  rec_success : bool;
  rec_metadata : option (gmap string pyval)
}.

(** The entry a call stores. *)
Definition entry_of (c : recording) : Metric :=
  mkMetric (rec_duration c) (rec_now c) (rec_success c)
    (default ∅ (rec_metadata c)).

(** The calls one after the other. *)
Fixpoint record_all (self : MetricsCollector.t) (cs : list recording) (h : Heap)
  : Heap :=
  match cs with
  | [] => h
  | c :: rest =>
      record_all self rest
        (snd (MetricsCollector.record_metric_at (rec_now c) self (rec_operation c)
                (rec_duration c) (rec_success c) (rec_metadata c) h))
  end.

(** The calls made for one operation. *)
Definition recordings_for (op : string) (cs : list recording) : list recording :=
  List.filter (fun c => bool_decide (rec_operation c = op)) cs.

(* ===================================================================== *)
(** ** Assets: [_validate_asset], [_process_single_asset] (services.py) *)
(* ===================================================================== *)

(** An uploaded file: the identity of the file object, its size, and the
    outcome of reading and sniffing ([magic.from_buffer(..., mime=True)])
    its first 1024 bytes and its whole content. *)
Record File := mkFile {
  file_handle : nat;
  file_size : Z;
  head_mime : outcome string;
  full_mime : outcome string
}.

(** A [ContentAsset] row: [asset_file] is [None] when the [file] field is
    empty, [asset_content] is its [content] attribute. *)
Record ContentAsset := mkContentAsset {
  asset_id : nat;
  asset_content : pyval;
  asset_file : option File;
  asset_type : string
}.

(** The [ValueError] of django's [FieldFile] when it is read without a
    file. *)
Definition no_file_error : exn :=
  ValueError "The 'file' attribute has no file associated with it.".

(** The asset category of the settings: the size limit and the lists of
    allowed mime types by setting name; either may be missing. *)
Record AssetSettings := mkAssetSettings {
  max_file_size : option Z;
  allowed_types : gmap string (list string)
}.

(** The [type_mapping] literal of [_validate_asset]. *)
Definition type_mapping : gmap string string :=
  {[ "image" := "allowed_image_types";
     "audio" := "allowed_audio_types";
     "video" := "allowed_video_types" ]}.

(** The [try] block of [_validate_asset]. *)
Definition validate_asset_body (asset : ContentAsset) (settings : AssetSettings)
  : outcome bool :=
  let size := match asset_file asset with Some f => file_size f | None => 0%Z end in
  limit ← match max_file_size settings with
           | Some m => Returned m
           | None => Raised (KeyError "max_file_size")
           end;
  if (limit <? size)%Z then Returned false
  else
    f ← match asset_file asset with
         | Some f => Returned f
         | None => Raised no_file_error
         end;
    mime_type ← head_mime f;
    name ← match type_mapping !! asset_type asset with
            | Some n => Returned n
            | None => Raised (TypeError "unhashable type: 'list'")
            end;
    allowed ← match allowed_types settings !! name with
               | Some l => Returned (l : list string)
               | None => Raised (TypeError
                           "argument of type 'NoneType' is not iterable")
               end;
    Returned (bool_decide (mime_type ∈@{list string} allowed)).

(** [_validate_asset(self, asset, settings)]: [except Exception] answers
    [False]. *)
Definition _validate_asset (asset : ContentAsset) (settings : AssetSettings)
  : outcome bool :=
  match validate_asset_body asset settings with
  | Raised e => if is_Exception e then Returned false else Raised e
  | r => r
  end.

Module AssetProcessing.
Section Processing.
Context {E : Type}.

(** The class of the object and its processors [_process_image],
    [_process_video], [_process_audio]: [None] for a method the object does
    not have. *)
Record t := mk {
  class_name : string;
  _process_image : option (ContentAsset → AssetSettings → M E ServiceResult);
  _process_video : option (ContentAsset → AssetSettings → M E ServiceResult);
  _process_audio : option (ContentAsset → AssetSettings → M E ServiceResult)
}.

Definition call_method (self : t) (name : string)
    (m : option (ContentAsset → AssetSettings → M E ServiceResult))
    (asset : ContentAsset) (settings : AssetSettings) : M E ServiceResult :=
  match m with
  | Some f => f asset settings
  | None => raise (AttributeError ("'" +:+ class_name self +:+
                     "' object has no attribute '" +:+ name +:+ "'"))
  end.

(** [ContentCreationService] and [EnhancedContentCreationService] define
    none of the three processors. *)
Definition of_class (name : string) : t := mk name None None None.

(** [_process_single_asset(self, asset, settings)]. *)
Definition _process_single_asset (self : t) (asset : ContentAsset)
    (settings : AssetSettings) : M E ServiceResult :=
  try_except
    (if String.eqb (asset_type asset) "image"
     then call_method self "_process_image" (_process_image self) asset settings
     else if String.eqb (asset_type asset) "video"
     then call_method self "_process_video" (_process_video self) asset settings
     else if String.eqb (asset_type asset) "audio"
     then call_method self "_process_audio" (_process_audio self) asset settings
     else mret (result_error ("Unsupported asset type: " +:+ asset_type asset)))
    (fun e => mret (result_error (exn_str e))).

End Processing.
Arguments t E : clear implicits.
End AssetProcessing.

(* ===================================================================== *)
(** ** [ContentService] (services.py) *)
(* ===================================================================== *)

(** [n > v] for an integer [n] and a settings value [v]. *)
Definition int_gt (n : Z) (v : pyval) : outcome bool :=
  match v with
  | PInt m => Returned (m <? n)%Z
  | _ => Raised (TypeError "'>' not supported between instances")
  end.

Module ContentService.
Section Service.
Context {E : Type}.

(** The class leaves [_validate] abstract: the methods below are what an
    instance of a subclass runs.  [objects_create] stands for
    [Content.objects.create(...)], [save] for [content.save()] on an
    object with the given attributes. *)
Record t := mk {
  settings : gmap string (gmap string pyval);
  objects_create : gmap string pyval → E → outcome pyval * E;
  save : gmap string pyval → E → outcome unit * E
}.

(** [content_settings.get('max_script_length', 10000)]. *)
Definition max_script_length (self : t) : pyval :=
  default (PInt 10000) (get_category (settings self) "content" !! "max_script_length").

(** [create_content(self, creator, content_type, title, script)]. *)
Definition create_content (self : t) (creator content_type title script : pyval)
  : M E ServiceResult :=
  try_except
    (n ← lift (py_len script);
     too_long ← lift (int_gt n (max_script_length self));
     if too_long : bool
     then mret (result_error "Script exceeds maximum length")
     else
       content ← external (objects_create self
                    {[ "creator" := creator; "content_type" := content_type;
                       "title" := title; "script" := script ]});
       mret (result_ok content))
    (fun e => mret (result_error (exn_str e))).

(** [update_content(self, content, **data)].  [content] is the object's
    attributes; the second component of the answer is what they are when
    the call ends. *)
Definition update_content (self : t) (content data : gmap string pyval)
  : M E (ServiceResult * gmap string pyval) :=
  fun w =>
    let check : outcome bool :=
      match data !! "script" with
      | Some script => n ← py_len script; int_gt n (max_script_length self)
      | None => Returned false
      end in
    match check with
    | Returned true =>
        (Returned (result_error "Script exceeds maximum length", content), w)
    | Returned false =>
        let content' := data ∪ content in
        match save self content' (ext w) with
        | (Returned _, e') =>
            (Returned (result_ok (PDict content'), content'), mkWorld e' (heap w))
        | (Raised e, e') =>
            if is_Exception e
            then (Returned (result_error (exn_str e), content'), mkWorld e' (heap w))
            else (Raised e, mkWorld e' (heap w))
        end
    | Raised e =>
        if is_Exception e
        then (Returned (result_error (exn_str e), content), w)
        else (Raised e, w)
    end.

End Service.
Arguments t E : clear implicits.
End ContentService.

(* ===================================================================== *)
(** ** [AssetManagementService] (services.py) *)
(* ===================================================================== *)

Module AssetManagementService.
Section Service.
Context {E : Type}.

(** [_validate_method] is [self._validate], which a subclass overrides;
    [objects_create content asset_type file mime] stands for
    [ContentAsset.objects.create(...)]. *)
Record t := mk {
  _validate_method : gmap string pyval → outcome unit;
  settings : gmap string (gmap string pyval);
  objects_create : pyval → string → File → string → E → outcome pyval * E
}.

Definition is_asset_type (v : pyval) : bool :=
  match v with
  | PStr s => bool_decide (s ∈ ["image"; "audio"; "video"])
  | _ => false
  end.

Definition is_content (v : pyval) : bool :=
  match v with PContent _ => true | _ => false end.

(** [_validate(self, data)] of [AssetManagementService], for a [data]
    that is a dict. *)
Definition _validate (data : gmap string pyval) : outcome unit :=
  if negb (bool_decide (is_Some (data !! "file")))
  then Raised (ValidationError "File data is required")
  else match data !! "asset_type" with
  | None => Raised (ValidationError "Asset type is required")
  | Some asset_type =>
      if negb (is_asset_type asset_type)
      then Raised (ValidationError
             "Invalid asset type. Must be one of: image, audio, video")
      else match data !! "content" with
      | None => Raised (ValidationError "Content reference is required")
      | Some content =>
          if negb (is_content content)
          then Raised (ValidationError "Invalid content reference")
          else match data !! "metadata" with
          | Some (PDict _) | None => Returned tt
          | Some _ => Raised (ValidationError "Metadata must be a dictionary")
          end
      end
  end.

(** An instance of [AssetManagementService] itself. *)
Definition base (settings : gmap string (gmap string pyval))
    (objects_create : pyval → string → File → string → E → outcome pyval * E) : t :=
  mk _validate settings objects_create.

(** The [valid_mimes] literal of [upload_asset]. *)
Definition valid_mimes : gmap string (list string) :=
  {[ "image" := ["image/jpeg"; "image/png"; "image/gif"];
     "audio" := ["audio/mpeg"; "audio/wav"; "audio/ogg"];
     "video" := ["video/mp4"; "video/quicktime"; "video/x-msvideo"] ]}.

(** [upload_asset(self, content, file_data, asset_type)], for an
    [asset_type] that is a [str] as annotated. *)
Definition upload_asset (self : t) (content : pyval) (file_data : File)
    (asset_type : string) : M E ServiceResult :=
  try_except
    (lift (_validate_method self
             {[ "file" := PObject (file_handle file_data);
                "asset_type" := PStr asset_type;
                "content" := content ]});;
     mime ← lift (full_mime file_data);
     if negb (bool_decide (mime ∈ default [] (valid_mimes !! asset_type)))
     then mret (result_error
                  ("Invalid file type for " +:+ asset_type +:+ ": " +:+ mime))
     else
       asset ← external (objects_create self content asset_type file_data mime);
       mret (result_ok (PDict {[ "asset" := asset ]})))
    (fun e => mret (result_error (exn_str e))).

End Service.
Arguments t E : clear implicits.
End AssetManagementService.

(** The asset category of [service_settings.py], as [_validate_asset]
    reads it. *)
Definition shipped_asset_settings : AssetSettings :=
  mkAssetSettings (Some (100 * 1024 * 1024)%Z)
    {[ "allowed_image_types" := ["image/jpeg"; "image/png"; "image/gif"];
       "allowed_audio_types" := ["audio/mpeg"; "audio/wav"];
       "allowed_video_types" := ["video/mp4"; "video/quicktime"] ]}.

(* ===================================================================== *)
(** ** [_validate] of [EnhancedContentOrchestrationService]
       (enhanced_services.py) *)
(* ===================================================================== *)

Module BatchValidation.

Definition required_fields : list string := ["content_type"; "title"].

(** [[field for field in required_fields if field not in config]]. *)
Definition missing_fields (config : gmap string pyval) : list string :=
  List.filter (fun field => negb (bool_decide (is_Some (config !! field))))
    required_fields.

(** The [for idx, config in enumerate(data['batch_config']):] loop, from
    index [idx] on. *)
Fixpoint check_configs (idx : nat) (configs : list pyval) : outcome unit :=
  match configs with
  | [] => Returned tt
  | config :: rest =>
      match config with
      | PDict c =>
          match missing_fields c with
          | [] => check_configs (S idx) rest
          | missing =>
              Raised (ValidationError
                ("Missing required fields in config " +:+ pretty idx +:+ ": "
                 +:+ String.concat ", " missing))
          end
      | _ => Raised (ValidationError
               ("Configuration at index " +:+ pretty idx +:+
                " must be a dictionary"))
      end
  end.

(** [_validate(self, data)]. *)
Definition _validate (data : pyval) : outcome unit :=
  match data with
  | PDict d =>
      match d !! "batch_config" with
      | None => Raised (ValidationError "Batch configuration is required")
      | Some (PList configs) => check_configs 0 configs
      | Some _ => Raised (ValidationError "Batch configuration must be a list")
      end
  | _ => Raised (ValidationError "Input data must be a dictionary")
  end.

(** A config the loop lets pass. *)
Definition well_formed (config : pyval) : bool :=
  match config with
  | PDict c => has_fields required_fields c
  | _ => false
  end.

End BatchValidation.

(* ===================================================================== *)
(** ** [ContentController] (source/apps/content/controllers.py) *)
(* ===================================================================== *)

(** [rest_framework.exceptions.ValidationError(detail)]: it is not a
    subclass of django's [ValidationError]. *)
Definition DRFValidationError (detail : option string) : exn :=
  Exc "rest_framework.exceptions.ValidationError"
    ("[ErrorDetail(string='" +:+ default "Invalid input." detail
     +:+ "', code='invalid')]").

(** [try: body / except ValidationError as e: handler e], for django's
    class. *)
Definition try_except_validation {E A} (body : M E A) (handler : exn → M E A)
  : M E A :=
  fun w =>
    match body w with
    | (Raised (Exc cls msg), w') =>
        if String.eqb cls "ValidationError" then handler (Exc cls msg) w'
        else (Raised (Exc cls msg), w')
    | r => r
    end.

Module ContentController.
Section Controller.
Context {E : Type} `{Clock E}.

(** The [validation] category as [_validate_content_data] reads it, with
    values of the types of the defaults. *)
Record ValidationSettings := mkValidationSettings {
  max_title_length : option Z;
  required_fields : option (list string)
}.

(** The attributes set by [__init__]. *)
Record t := mk {
  content_service : EnhancedContentCreationService.t E;
  orchestration_service : EnhancedContentOrchestrationService.t E;
  metrics_collector : MetricsCollector.t;
  content_settings : gmap string pyval;
  validation_settings : ValidationSettings
}.

(** [record_metrics(self, operation, result)]: [MetricsCollector] has
    [record_metric] only, so the call of [record_metrics] on it raises
    inside the [try]. *)
Definition record_metrics (self : t) (operation : string)
    (result : ServiceResult) : M E unit :=
  try_except
    (raise (AttributeError
       "'MetricsCollector' object has no attribute 'record_metrics'"))
    (fun _ => mret tt).

(** [_validate_content_data(self, data)]. *)
Definition _validate_content_data (self : t) (data : gmap string pyval) : bool :=
  let max_title_length :=
    default 200%Z (max_title_length (validation_settings self)) in
  let required_fields :=
    default ["content_type"; "title"] (required_fields (validation_settings self)) in
  if negb (forallb (fun field => bool_decide (is_Some (data !! field)))
             required_fields)
  then false
  else match py_len (default (PStr "") (data !! "title")) with
       | Returned n => negb (max_title_length <? n)%Z
       | Raised _ => false
       end.

(** The [for item in batch_data:] loop: the items as the loop leaves
    them, and whether it ran to the end. *)
Fixpoint check_items (self : t) (user : pyval) (batch_data : list (gmap string pyval))
  : list (gmap string pyval) * bool :=
  match batch_data with
  | [] => ([], true)
  | item :: rest =>
      if negb (_validate_content_data self item) then (item :: rest, false)
      else let '(rest', ok) := check_items self user rest in
           (<[ "creator" := user ]> item :: rest', ok)
  end.

(** [create_content_batch(self, batch_data, user)].  The answer is a
    [ServiceResult] or the [data] of one; the second component is the
    caller's [batch_data] when the call ends. *)
Definition create_content_batch (self : t) (batch_data : list (gmap string pyval))
    (user : pyval) : M E (pyval * list (gmap string pyval)) :=
  try_except_validation
    (let batch_size := default (PInt 10) (content_settings self !! "batch_size") in
     too_large ← lift (int_gt (Z.of_nat (length batch_data)) batch_size);
     if too_large : bool
     then mret (of_result (result_error
                  ("Batch size exceeds maximum allowed (" +:+
                   match batch_size with PInt n => pretty n | _ => "" end
                   +:+ ")")),
                batch_data)
     else
       let '(items, ok) := check_items self user batch_data in
       if negb ok
       then mret (of_result (result_error "Invalid content in batch"), items)
       else
         result ← EnhancedContentOrchestrationService.create_content_batch_with_monitoring
                    (orchestration_service self) (map PDict items);
         record_metrics self "create_content_batch" result;;
         if failed result then raise (DRFValidationError (error result))
         else mret (data result, items))
    (fun e => raise (DRFValidationError (Some (exn_str e)))).

(** [create_content(self, data, user)]; the second component is the
    caller's [data] when the call ends. *)
Definition create_content (self : t) (data : gmap string pyval) (user : pyval)
  : M E (pyval * gmap string pyval) :=
  try_except_validation
    (if negb (_validate_content_data self data)
     then mret (of_result (result_error "Content validation failed"), data)
     else
       let data := <[ "creator" := user ]> data in
       result ← EnhancedContentCreationService.create_content_with_pipeline
                  (content_service self) data;
       record_metrics self "create_content" result;;
       if failed result then raise (DRFValidationError (error result))
       else let 'mkServiceResult _ payload _ := result in mret (payload, data))
    (fun e => raise (DRFValidationError (Some (exn_str e)))).

End Controller.
Arguments t E : clear implicits.
End ContentController.

(** The content category of [service_settings.py]. *)
Definition shipped_content_settings : gmap string pyval :=
  {[ "max_batch_size" := PInt 50; "processing_timeout" := PInt 300;
     "max_retries" := PInt 3; "chunk_size" := PInt (1024 * 1024) ]}.

(* ===================================================================== *)
(** ** More sample collaborators *)
(* ===================================================================== *)

(** Three calls of [record_metric], two of them for [render]. *)
Definition sample_recordings : list recording :=
  [ mkRecording 1 "render" 5 true None;
    mkRecording 2 "encode" 9 false None;
    mkRecording 3 "render" 7 true (Some {[ "frames" := PInt 24 ]}) ].

(** The mapping [get_metrics()] hands out on [used_collector], and the
    heap after the call. *)
Definition sample_snapshot : loc :=
  match fst (MetricsCollector.get_metrics (fst used_collector) None
               (snd used_collector)) with
  | Returned r => r
  | Raised _ => 0
  end.

Definition sample_snapshot_heap : Heap :=
  snd (MetricsCollector.get_metrics (fst used_collector) None (snd used_collector)).

(** Monitors that own the collector of [new_collector]. *)
Definition fresh_pm : PerformanceMonitor.t := PerformanceMonitor.mk (fst new_collector).
Definition fresh_rm : ResourceMonitor.t := ResourceMonitor.mk 4 (fst new_collector).
Definition fresh_world : World Z := mkWorld 0%Z (snd new_collector).

(** A work function that needs 3 ticks and then raises. *)
Definition failing_work : Coroutine Z pyval :=
  mkCoroutine "failing_work"
    (fun _ _ w => (Raised (ValueError "bad input"), mkWorld (ext w + 3)%Z (heap w))).

Definition sample_middleware : TelemetryMiddleware.t :=
  TelemetryMiddleware.mk (fst new_collector).

Definition sample_http_request (client : option string)
  : TelemetryMiddleware.Request :=
  TelemetryMiddleware.mkRequest "GET" "/content" client
    {[ "user-agent" := "curl/8" ]}.

(** A handler that answers 200 after 2 ticks. *)
Definition sample_call_next (request : TelemetryMiddleware.Request)
  : M Z TelemetryMiddleware.Response :=
  fun w => (Returned (TelemetryMiddleware.mkResponse (Some (PInt 200)) PNone),
            mkWorld (ext w + 2)%Z (heap w)).

(** Files of 2048 bytes with the given sniffed type. *)
Definition sample_file (mime : string) : File :=
  mkFile 1 2048 (Returned mime) (Returned mime).

Definition sample_asset (kind mime : string) : ContentAsset :=
  mkContentAsset 3 (PContent []) (Some (sample_file mime)) kind.

(** A row store that answers with a fixed row after one tick. *)
Definition sample_asset_store (content : pyval) (kind : string) (f : File)
    (mime : string) (e : Z) : outcome pyval * Z :=
  (Returned (PObject 11), (e + 1)%Z).

Definition sample_content_service (save_outcome : outcome unit)
  : ContentService.t Z :=
  ContentService.mk
    {[ "content" := {[ "max_script_length" := PInt 5 ]} ]}
    (fun fields e => (Returned (PObject 1), (e + 1)%Z))
    (fun fields e => (save_outcome, (e + 1)%Z)).

(** A stored item, and the same item with the fields that
    [create_content_batch] adds to it. *)
Definition sample_item : gmap string pyval :=
  {[ "content_type" := PStr "short"; "title" := PStr "Launch";
     "script" := PStr "Welcome." ]}.

Definition sample_full_item : gmap string pyval :=
  <[ "voiceover" := PObject 7 ]> (<[ "script_metrics" := PDict ∅ ]> sample_item).

Definition sample_management : ContentManagementService.t Z :=
  ContentManagementService.mk (fun _ e => (Returned (PObject 1), (e + 1)%Z)).

(** The controller of the sample services, with the content category of
    [service_settings.py] and no [validation] category. *)
Definition sample_controller : ContentController.t Z :=
  ContentController.mk (sample_service good_script good_voiceover)
    sample_batch_service (fst new_collector) shipped_content_settings
    (ContentController.mkValidationSettings None None).

Definition sample_user : pyval := PObject 42.

(** A batch of two items that pass the validation of the controller. *)
Definition sample_valid_items : list (gmap string pyval) :=
  [ {[ "content_type" := PStr "intro"; "title" := PStr "Launch" ]};
    {[ "content_type" := PStr "outro"; "title" := PStr "Launch" ]} ].

(* ===================================================================== *)
(** * Properties *)
(* ===================================================================== *)

(* ===================================================================== *)
(** ** The metrics collector *)
(* ===================================================================== *)

Section CollectorFacts.
Import MetricsCollector.


Lemma heap_wf_empty : heap_wf empty_heap.
Proof. split; simpl; intros ? ? Hx; by rewrite lookup_empty in Hx. Qed.

Lemma heap_wf_alloc_dict (d : gmap string loc) h :
heap_wf h → (∀ k l, d !! k = Some l → l < next h) →
heap_wf (snd (alloc_dict d h)).
Proof.
intros [Hd Hl] Hnew. split; simpl.
- intros r d' Hr. destruct (decide (r = next h)) as [->|Hne].
  + rewrite lookup_insert_eq in Hr. inversion Hr; subst d'. split; [lia|].
    intros k l Hk. specialize (Hnew _ _ Hk). lia.
  + rewrite lookup_insert_ne in Hr by done. destruct (Hd _ _ Hr) as [? Hk].
    split; [lia|]. intros k l Hkl. specialize (Hk _ _ Hkl). lia.
- intros r l Hr. specialize (Hl _ _ Hr). lia.
Qed.

Lemma heap_wf_alloc_list (l : list Metric) h :
heap_wf h → heap_wf (snd (alloc_list l h)).
Proof.
intros [Hd Hl]. split; simpl.
- intros r d Hr. destruct (Hd _ _ Hr) as [? Hk]. split; [lia|].
  intros k l' Hkl. specialize (Hk _ _ Hkl). lia.
- intros r l' Hr. destruct (decide (r = next h)) as [->|Hne]; [lia|].
  rewrite lookup_insert_ne in Hr by done. specialize (Hl _ _ Hr). lia.
Qed.

Lemma heap_wf_write_dict r (d : gmap string loc) h :
heap_wf h → r < next h → (∀ k l, d !! k = Some l → l < next h) →
heap_wf (write_dict r d h).
Proof.
intros [Hd Hl] Hr Hnew. split; simpl; [|done].
intros r' d' Hr'. destruct (decide (r' = r)) as [->|Hne].
- rewrite lookup_insert_eq in Hr'. inversion Hr'; subst d'. eauto.
- rewrite lookup_insert_ne in Hr' by done. eauto.
Qed.

Lemma heap_wf_write_list r (l : list Metric) h :
heap_wf h → r < next h → heap_wf (write_list r l h).
Proof.
intros [Hd Hl] Hr. split; simpl; [done|].
intros r' l' Hr'. destruct (decide (r' = r)) as [->|Hne]; [done|].
rewrite lookup_insert_ne in Hr' by done. eauto.
Qed.

Lemma wf_init h : heap_wf h → wf (fst (init h)) (snd (init h)).
Proof.
intros Hwf. split_and!.
- apply (heap_wf_alloc_dict ∅ h Hwf). intros k l Hk. by rewrite lookup_empty in Hk.
- simpl. rewrite lookup_insert_eq. eauto.
- intros k1 k2 l. unfold read_dict. simpl. rewrite lookup_insert_eq. simpl.
  by rewrite lookup_empty.
Qed.

Lemma wf_metrics_lt self h : wf self h → metrics self < next h.
Proof. intros [[Hd _] [[d Hs] _]]. by destruct (Hd _ _ Hs). Qed.

Lemma wf_entry_lt self h k l :
wf self h → read_dict (metrics self) h !! k = Some l → l < next h.
Proof.
intros [[Hd _] [[d Hs] _]] Hk. unfold read_dict in Hk. rewrite Hs in Hk. simpl in Hk.
destruct (Hd _ _ Hs) as [_ Hin]. eauto.
Qed.

(** [defaultdict_getitem] keeps the heap well formed and returns an
  allocated list that the store now binds to the key. *)
Lemma defaultdict_getitem_spec self op h l h1 :
wf self h →
defaultdict_getitem self op h = (l, h1) →
wf self h1 ∧ l < next h1 ∧ next h ≤ next h1 ∧
read_dict (metrics self) h1 = <[op := l]> (read_dict (metrics self) h) ∧
(∀ l', l' < next h → read_list l' h1 = read_list l' h) ∧
(read_dict (metrics self) h !! op = None → read_list l h1 = [] ∧ l = next h) ∧
(∀ r, r ≠ metrics self → dicts h1 !! r = dicts h !! r).
Proof.
intros Hwf. unfold defaultdict_getitem.
destruct (read_dict (metrics self) h !! op) as [l0|] eqn:Hop.
- intros [= <- <-]. split_and!; try done.
  + eapply wf_entry_lt; eauto.
  + by rewrite insert_id.
- intros [= <- <-]. pose proof (wf_metrics_lt _ _ Hwf) as Hm.
  pose proof (fun k l => wf_entry_lt self h k l Hwf) as Hlt.
  destruct Hwf as [Hh [[d Hs] Hinj]].
  assert (Hrd : read_dict (metrics self) h = d) by (unfold read_dict; by rewrite Hs).
  assert (Hrd1 : read_dict (metrics self)
            (write_dict (metrics self) (<[op := next h]> (read_dict (metrics self) h))
               (snd (alloc_list [] h))) = <[op := next h]> d).
  { unfold read_dict at 1. simpl. rewrite lookup_insert_eq. simpl. by rewrite Hrd. }
  simpl in Hrd1. split_and!.
  + split_and!.
    * apply heap_wf_write_dict; [by apply heap_wf_alloc_list|simpl; lia|].
      intros k l. simpl. destruct (decide (k = op)) as [->|Hne].
      -- rewrite lookup_insert_eq. intros [= <-]. lia.
      -- rewrite lookup_insert_ne by done. intros Hk.
         specialize (Hlt _ _ Hk). lia.
    * simpl. rewrite lookup_insert_eq. eauto.
    * intros k1 k2 l. rewrite Hrd1. 
      destruct (decide (k1 = op)) as [->|Hne1], (decide (k2 = op)) as [->|Hne2];
        try done.
      -- rewrite lookup_insert_eq, lookup_insert_ne by done.
         intros [= <-] Hk. rewrite <- Hrd in Hk. specialize (Hlt _ _ Hk). lia.
      -- rewrite lookup_insert_eq, lookup_insert_ne by done.
         intros Hk [= <-]. rewrite <- Hrd in Hk. specialize (Hlt _ _ Hk). lia.
      -- rewrite !lookup_insert_ne by done. rewrite <- Hrd. apply Hinj.
  + simpl. lia.
  + simpl. lia.
  + rewrite Hrd1. by rewrite Hrd.
  + intros l' Hl'. unfold read_list. simpl. rewrite lookup_insert_ne by lia. done.
  + intros _. unfold read_list. simpl. by rewrite lookup_insert_eq.
  + intros r Hr. simpl. by rewrite lookup_insert_ne.
Qed.

Lemma observe_lookup self h k :
observe self h !! k = (fun l => read_list l h) <$> (read_dict (metrics self) h !! k).
Proof. unfold observe. by rewrite lookup_fmap. Qed.

Lemma given_truthy op : op ≠ "" → given (Some op) = Some op.
Proof.
intros Hne. unfold given, truthy.
destruct (String.eqb op "") eqn:Heq; [|done].
apply String.eqb_eq in Heq. done.
Qed.

(** Recording appends one entry under the operation and touches nothing
  else. *)
Lemma record_metric_at_spec now self op dur ok md h :
wf self h →
∃ h', record_metric_at now self op dur ok md h = (Returned tt, h') ∧
      wf self h' ∧
      observe self h' =
        <[op := default [] (observe self h !! op) ++ [mkMetric dur now ok (default ∅ md)]]>
          (observe self h).
Proof.
intros Hwf. unfold record_metric_at.
destruct (defaultdict_getitem self op h) as [l h1] eqn:Hget.
destruct (defaultdict_getitem_spec _ _ _ _ _ Hwf Hget)
  as (Hwf1 & Hl & Hnext & Hrd & Hframe & Hnew & Hdicts).
eexists; split; [done|]. split.
- destruct Hwf1 as (Hh & Hs & Hinj). split_and!; [by apply heap_wf_write_list|done|done].
- apply map_eq. intros k. rewrite observe_lookup.
  assert (Hrd' : read_dict (metrics self) (write_list l (read_list l h1 ++ [mkMetric dur now ok (default ∅ md)]) h1)
                 = <[op := l]> (read_dict (metrics self) h)) by (rewrite <- Hrd; done).
  rewrite Hrd'. destruct (decide (k = op)) as [->|Hne].
  + rewrite !lookup_insert_eq. simpl. f_equal.
    unfold read_list at 1. simpl. rewrite lookup_insert_eq. simpl. f_equal.
    rewrite observe_lookup.
    destruct (read_dict (metrics self) h !! op) as [l0|] eqn:Hop; simpl.
    * unfold defaultdict_getitem in Hget. rewrite Hop in Hget.
      by inversion Hget; subst.
    * by destruct (Hnew eq_refl) as [-> _].
  + rewrite !lookup_insert_ne by done. rewrite observe_lookup.
    destruct (read_dict (metrics self) h !! k) as [l'|] eqn:Hk; [|done]. simpl.
    f_equal. pose proof (wf_entry_lt _ _ _ _ Hwf Hk) as Hlt.
    assert (l' ≠ l) as Hne'.
    { intros ->. destruct Hwf1 as (_ & _ & Hinj). apply Hne.
      apply (Hinj k op l); rewrite Hrd.
      - by rewrite lookup_insert_ne.
      - by rewrite lookup_insert_eq. }
    unfold read_list at 1. simpl. rewrite lookup_insert_ne by done.
    by apply Hframe.
Qed.

(** Allocating a mapping leaves every older object as it is. *)
Lemma alloc_dict_frame (d : gmap string loc) h self :
wf self h → (∀ k l, d !! k = Some l → l < next h) →
wf self (snd (alloc_dict d h)) ∧
observe self (snd (alloc_dict d h)) = observe self h ∧
view (fst (alloc_dict d h)) (snd (alloc_dict d h)) = (λ l, read_list l h) <$> d.
Proof.
intros Hwf Hd. pose proof (wf_metrics_lt _ _ Hwf) as Hm.
assert (Hrd : read_dict (metrics self) (snd (alloc_dict d h)) = read_dict (metrics self) h).
{ unfold read_dict. simpl. rewrite lookup_insert_ne by lia. done. }
split_and!.
- destruct Hwf as (Hh & Hs & Hinj). split_and!.
  + by apply heap_wf_alloc_dict.
  + simpl. rewrite lookup_insert_ne by lia. done.
  + by rewrite Hrd.
- unfold observe. rewrite Hrd. done.
- unfold view, read_dict. simpl. rewrite lookup_insert_eq. done.
Qed.

(** [get_metrics()] returns, and the new mapping shows the store. *)
Lemma get_metrics_all_spec self h :
wf self h →
∃ r h', get_metrics self None h = (Returned r, h') ∧
        wf self h' ∧ r ≠ metrics self ∧
        observe self h' = observe self h ∧
        view r h' = observe self h.
Proof.
intros Hwf. unfold get_metrics. simpl.
destruct (alloc_dict_frame (read_dict (metrics self) h) h self Hwf) as (H1 & H2 & H3).
{ intros k l. by apply wf_entry_lt. }
exists (next h), (snd (alloc_dict (read_dict (metrics self) h) h)).
split_and!; try done.
pose proof (wf_metrics_lt _ _ Hwf). lia.
Qed.

(** The guard [if operation:] takes the empty name for no name. *)
Lemma get_metrics_empty_name self h :
get_metrics self (Some "") h = get_metrics self None h.
Proof. reflexivity. Qed.

(** Claim C9.  [get_metrics(operation)] for an operation name (a
  non-empty string) under which no metric is recorded returns an empty
  mapping and changes the collector: afterwards the store binds the
  operation to an empty list, and a following [get_metrics()] shows the
  operation as a key. *)
Theorem get_metrics_unrecorded_operation (self : t) (h : Heap) (op : string) :
wf self h →
op ≠ "" →
(∀ ms, observe self h !! op = Some ms → ms = []) →
∃ r h' r2 h2,
  get_metrics self (Some op) h = (Returned r, h') ∧
  view r h' = ∅ ∧
  observe self h' = <[op := []]> (observe self h) ∧
  get_metrics self None h' = (Returned r2, h2) ∧
  view r2 h2 !! op = Some [].
Proof.
intros Hwf Hop Hnone. unfold get_metrics at 1. rewrite (given_truthy _ Hop).
destruct (defaultdict_getitem self op h) as [l h1] eqn:Hget.
destruct (defaultdict_getitem_spec _ _ _ _ _ Hwf Hget)
  as (Hwf1 & Hl & Hnext & Hrd & Hframe & Hnew & Hdicts).
assert (Hempty : read_list l h1 = []).
{ destruct (read_dict (metrics self) h !! op) as [l0|] eqn:Hl0.
  - unfold defaultdict_getitem in Hget. rewrite Hl0 in Hget.
    inversion Hget; subst. apply Hnone. rewrite observe_lookup, Hl0. done.
  - by destruct (Hnew eq_refl). }
rewrite Hempty. simpl.
destruct (alloc_dict_frame ∅ h1 self Hwf1) as (Hwf2 & Hobs2 & Hview2).
{ intros k l'. by rewrite lookup_empty. }
assert (Hobs1 : observe self h1 = <[op := []]> (observe self h)).
{ apply map_eq. intros k. rewrite observe_lookup, Hrd.
  destruct (decide (k = op)) as [->|Hne].
  - rewrite !lookup_insert_eq. simpl. by rewrite Hempty.
  - rewrite !lookup_insert_ne by done. rewrite observe_lookup.
    destruct (read_dict (metrics self) h !! k) as [l'|] eqn:Hk; [|done]. simpl.
    f_equal. apply Hframe. eapply wf_entry_lt; eauto. }
destruct (get_metrics_all_spec self _ Hwf2) as (r2 & h2 & Hg2 & _ & _ & _ & Hv2).
exists (next h1), (snd (alloc_dict ∅ h1)), r2, h2. split_and!.
- done.
- etrans; [exact Hview2|]. by rewrite fmap_empty.
- rewrite Hobs2. done.
- done.
- rewrite Hv2, Hobs2, Hobs1. by rewrite lookup_insert_eq.
Qed.

Lemma wf_new_collector : wf (fst new_collector) (snd new_collector).
Proof. apply wf_init, heap_wf_empty. Qed.

Lemma get_metrics_unrecorded_operation_witness :
∃ r h' r2 h2,
  get_metrics (fst new_collector) (Some "render") (snd new_collector)
    = (Returned r, h') ∧
  view r h' = ∅ ∧
  observe (fst new_collector) h'
    = <["render" := []]> (observe (fst new_collector) (snd new_collector)) ∧
  get_metrics (fst new_collector) None h' = (Returned r2, h2) ∧
  view r2 h2 !! "render" = Some [].
Proof.
apply (get_metrics_unrecorded_operation (fst new_collector) (snd new_collector) "render").
- exact wf_new_collector.
- discriminate.
- intros ms. vm_compute. discriminate.
Defined.

(** The key is new when the operation was not in the store before. *)
Lemma get_metrics_unrecorded_new_key self h op :
wf self h → observe self h !! op = None →
∃ r0 h0, get_metrics self None h = (Returned r0, h0) ∧ view r0 h0 !! op = None.
Proof.
intros Hwf Hnone.
destruct (get_metrics_all_spec self h Hwf) as (r & h' & Hg & _ & _ & _ & Hv).
exists r, h'. split; [done|]. by rewrite Hv.
Qed.

(** An operation with a recorded metric cannot be queried by name. *)
Lemma get_metrics_recorded_raises self h op m ms :
op ≠ "" →
observe self h !! op = Some (m :: ms) →
get_metrics self (Some op) h =
  (Raised (ValueError
     "dictionary update sequence element #0 has length 4; 2 is required"), h).
Proof.
intros Hop Hobs. unfold get_metrics. rewrite (given_truthy _ Hop).
rewrite observe_lookup in Hobs.
destruct (read_dict (metrics self) h !! op) as [l|] eqn:Hl; [|done].
simpl in Hobs. inversion Hobs as [Hrl].
unfold defaultdict_getitem. rewrite Hl. rewrite Hrl. done.
Qed.

(** The other operations do return. *)
Lemma other_operations_return now self op dur ok md h :
has_returned (fst (record_metric_at now self op dur ok md h)) = true ∧
has_returned (fst (get_metrics self None h)) = true ∧
has_returned (fst (clear_metrics self h)) = true.
Proof.
unfold record_metric_at, get_metrics. simpl.
destruct (defaultdict_getitem self op h). done.
Qed.

(** Claim C8, at the failing input.  After one [record_metric("render",
  ...)], [get_metrics("render")] raises [ValueError]: [dict] is applied
  to a list whose element is a dict of four keys. *)
Theorem get_metrics_raises_after_record :
fst used_collector = fst new_collector ∧
observe (fst used_collector) (snd used_collector) !! "render" = Some [sample_metric] ∧
fst (get_metrics (fst used_collector) (Some "render") (snd used_collector)) =
  Raised (ValueError
    "dictionary update sequence element #0 has length 4; 2 is required").
Proof. vm_compute. split_and!; reflexivity. Qed.

(** Claim C7, at the failing input.  The mapping returned by
  [get_metrics()] holds the collector's own lists: appending to
  [result["render"]] changes what the collector reports afterwards. *)
Theorem get_metrics_lists_are_shared :
∃ r h2,
  get_metrics (fst used_collector) None (snd used_collector) = (Returned r, h2) ∧
  let h3 := mutate (Append r "render" (mkMetric 99 7 false ∅)) h2 in
  observe (fst used_collector) h2 !! "render" = Some [sample_metric] ∧
  observe (fst used_collector) h3 !! "render"
    = Some [sample_metric; mkMetric 99 7 false ∅].
Proof. vm_compute. eexists _, _. split; [reflexivity|]. split; reflexivity. Qed.

(** Property X29.  What does hold of the snapshot: mutations of the
  mapping returned by [get_metrics()] itself (binding, deleting, clearing
  keys) do not reach the collector. *)
Lemma get_metrics_top_level_independent self h r h' mu :
wf self h →
get_metrics self None h = (Returned r, h') →
top_level mu = true → target mu = r →
observe self (mutate mu h') = observe self h'.
Proof.
intros Hwf Hg Htop Htgt.
destruct (get_metrics_all_spec self h Hwf) as (r' & h'' & Hg' & _ & Hne & _ & _).
rewrite Hg in Hg'. inversion Hg'; subst r' h''.
destruct mu; simpl in *; try done; subst;
  unfold observe, read_dict, read_list; simpl; rewrite lookup_insert_ne by done; done.
Qed.

End CollectorFacts.

(* ===================================================================== *)
(** ** The monitors *)
(* ===================================================================== *)

Lemma try_except_reraise {E A} (body : M E A) w :
  try_except body (fun e => raise e) w = body w.
Proof.
  unfold try_except, raise. destruct (body w) as [[a|e] w']; [done|].
  by destruct (is_Exception e).
Qed.

(** A handler that returns turns every [Exception] into an answer. *)
Lemma try_except_total {E A} (body : M E A) (handler : exn → M E A) w :
  (∀ e w', has_returned (fst (handler e w')) = true) →
  match fst (try_except body handler w) with
  | Returned _ => True
  | Raised e => is_Exception e = false
  end.
Proof.
  intros Hh. unfold try_except. destruct (body w) as [[a|e] w']; simpl; [done|].
  destruct (is_Exception e) eqn:He; simpl; [|done].
  specialize (Hh e w'). by destruct (fst (handler e w')).
Qed.

Section MonitorFacts.
Context {E R : Type} `{Clock E}.

(** The [finally] clause returns and leaves the external world alone. *)
Lemma finalize_returns (self : ResourceMonitor.t) (func : Coroutine E R)
    args kwargs t0 (o : outcome R) w :
  ∃ h', ResourceMonitor.finalize self func args kwargs t0 o w
        = (Returned tt, mkWorld (ext w) h').
Proof.
  unfold ResourceMonitor.finalize, time_time, MetricsCollector.record_metric,
    MetricsCollector.record_metric_at, mbind, M_bind, bind. simpl.
  destruct (MetricsCollector.defaultdict_getitem _ _ _) as [l h1]. simpl.
  eauto.
Qed.

(** The wrapper hands back what the one call of [func] gave. *)
Lemma execute_with_monitoring_eq (self : ResourceMonitor.t) (func : Coroutine E R)
    args kwargs w :
  ResourceMonitor.execute_with_monitoring self func args kwargs w =
    let '(o, w1) := co_call func args kwargs w in
    (o, snd (ResourceMonitor.finalize self func args kwargs (time_now (ext w)) o w1)).
Proof.
  unfold ResourceMonitor.execute_with_monitoring, ResourceMonitor.monitored.
  unfold mbind, M_bind, bind, time_time, try_finally. simpl.
  rewrite try_except_reraise.
  destruct (co_call func args kwargs w) as [o w1].
  destruct (finalize_returns self func args kwargs (time_now (ext w)) o w1) as [h' Hf].
  rewrite Hf. done.
Qed.

(** Property X28.  [execute_with_monitoring] adds exactly one entry to
    the collector of the resource monitor for a call: under
    [func.__name__], with the elapsed time, the renderings of the
    arguments as metadata, and a success flag that is false exactly when
    the call raised an [Exception]. *)
Lemma execute_with_monitoring_metric (self : ResourceMonitor.t)
    (func : Coroutine E R) args kwargs w :
  MetricsCollector.wf (ResourceMonitor.metrics_collector self)
    (heap (snd (co_call func args kwargs w))) →
  let c := ResourceMonitor.metrics_collector self in
  let o := fst (co_call func args kwargs w) in
  let w1 := snd (co_call func args kwargs w) in
  let w' := snd (ResourceMonitor.execute_with_monitoring self func args kwargs w) in
  MetricsCollector.observe c (heap w') =
    <[co_name func :=
        default [] (MetricsCollector.observe c (heap w1) !! co_name func) ++
        [mkMetric (time_now (ext w1) - time_now (ext w)) (time_now (ext w1))
           (success_flag o)
           {[ "args" := PRepr args ∅; "kwargs" := PRepr [] kwargs ]}]]>
      (MetricsCollector.observe c (heap w1)).
Proof.
  intros Hwf c o w1 w'. subst w'. rewrite execute_with_monitoring_eq.
  subst o w1 c. destruct (co_call func args kwargs w) as [o w1]. simpl in *.
  unfold ResourceMonitor.finalize, time_time, MetricsCollector.record_metric,
    mbind, M_bind, bind. simpl.
  match goal with |- context [MetricsCollector.record_metric_at ?n ?c ?op ?d ?ok ?md ?h] =>
    destruct (record_metric_at_spec n c op d ok md h Hwf) as (h' & -> & _ & Hobs) end.
  simpl. exact Hobs.
Qed.

(** The decorator of the performance monitor hands back what the one
    call of [func] gave, too. *)
Lemma monitor_eq (self : PerformanceMonitor.t) (name : string)
    (func : Coroutine E R) args kwargs w :
  ∃ h', PerformanceMonitor.monitor self name func args kwargs w
        = (fst (co_call func args kwargs w),
           mkWorld (ext (snd (co_call func args kwargs w))) h').
Proof.
  unfold PerformanceMonitor.monitor.
  unfold mbind, M_bind, bind, time_time, try_finally. simpl.
  rewrite try_except_reraise.
  destruct (co_call func args kwargs w) as [o w1]. simpl.
  unfold MetricsCollector.record_metric, MetricsCollector.record_metric_at.
  destruct (MetricsCollector.defaultdict_getitem _ _ _) as [l h1]. simpl.
  eauto.
Qed.

End MonitorFacts.

(** Claim C2, as the code has it.  Whatever [timeout] and [max_retries]
    are passed, [execute_with_monitoring] calls the work function exactly
    once, with all its arguments, and surfaces that call's own outcome:
    the value it returned or the exception it raised. *)
Theorem execute_with_monitoring_single_attempt {E R} `{Clock E}
    (self : ResourceMonitor.t) (func : Coroutine E R)
    (args : list pyval) (kwargs : gmap string pyval) (n : nat) (e : E) (h : Heap) :
  ∃ w', ResourceMonitor.execute_with_monitoring self (counting func) args kwargs
          (mkWorld (n, e) h)
        = (fst (co_call func args kwargs (mkWorld e h)), w') ∧
        fst (ext w') = S n ∧
        snd (ext w') = ext (snd (co_call func args kwargs (mkWorld e h))).
Proof.
  rewrite execute_with_monitoring_eq. simpl.
  destruct (co_call func args kwargs (mkWorld e h)) as [o w1]. simpl.
  destruct (finalize_returns (R:=R) self (counting func) args kwargs
              (time_now (n, e)) o (mkWorld (S n, ext w1) (heap w1))) as [h' Hf].
  rewrite Hf. simpl. eauto.
Qed.

(** Claim C2 fails as stated.  With [timeout=1] and [max_retries=3], a
    work function that needs 100 ticks is called once, not four times,
    and its late value is returned as a success instead of a timeout. *)
Lemma slow_work_exceeds_timeout_once :
  let timeout := 1%Z in
  let max_retries := 3 in
  let kwargs : gmap string pyval :=
    {[ "timeout" := PInt timeout; "max_retries" := PInt (Z.of_nat max_retries) ]} in
  let '(o, w') := ResourceMonitor.execute_with_monitoring sample_rm
                    (counting slow_work) [] kwargs
                    (mkWorld (0, 0%Z) (heap sample_world)) in
  (timeout < time_now (ext w') - 0)%Z ∧
  o = Returned (PStr "late") ∧
  fst (ext w') = 1 ∧
  ¬ (fst (ext w') = max_retries + 1 ∧ is_timeout o = true).
Proof.
  vm_compute. split_and!; try done. intros [? ?]. done.
Qed.

(** A work function that raises a timeout error itself is not retried
    either: the error of the single call is raised again. *)
Lemma timeout_error_is_reraised_once :
  let failing : Coroutine Z pyval :=
    mkCoroutine "failing"
      (fun _ _ w => (Raised (Exc "TimeoutError" ""), mkWorld (ext w + 100)%Z (heap w))) in
  let kwargs : gmap string pyval :=
    {[ "timeout" := PInt 1; "max_retries" := PInt 3 ]} in
  let '(o, w') := ResourceMonitor.execute_with_monitoring sample_rm
                    (counting failing) [] kwargs
                    (mkWorld (0, 0%Z) (heap sample_world)) in
  is_timeout o = true ∧ fst (ext w') = 1.
Proof. vm_compute. done. Qed.

(* ===================================================================== *)
(** ** The binding of arguments *)
(* ===================================================================== *)


(** The keywords that the pipeline forwards name no parameter of a method
    that declares [context] only: the call raises, and [timeout], written
    first, is the keyword the message names. *)
Lemma bind_context_forwarded (qualname : string) (context max_retries timeout : pyval) :
  bind_arguments qualname ["context"] false [context]
    (EnhancedContentCreationService.forwarded max_retries timeout)
    = Raised (TypeError (qualname +:+
                "() got an unexpected keyword argument 'timeout'")).
Proof. vm_compute. reflexivity. Qed.

(** A method that ends in [**options] takes them. *)
Lemma bind_context_options (qualname : string) (context max_retries timeout : pyval) :
  bind_arguments qualname ["context"] true [context]
    (EnhancedContentCreationService.forwarded max_retries timeout)
    = Returned {[ "context" := context ]}.
Proof. vm_compute. reflexivity. Qed.

Lemma bind_pipeline_arguments (request max_retries timeout : pyval) :
  ∃ locals : gmap string pyval,
    bind_arguments "EnhancedContentCreationService._execute_pipeline"
      ["request"; "max_retries"; "timeout"] false
      [request; max_retries; timeout] ∅ = Returned locals ∧
    locals !!! "request" = request ∧
    locals !!! "max_retries" = max_retries ∧
    locals !!! "timeout" = timeout.
Proof. eexists. split; [vm_compute; reflexivity|]. split_and!; reflexivity. Qed.

Lemma bind_batch_config (batch_config : pyval) :
  bind_arguments
    "EnhancedContentOrchestrationService._create_batch_with_monitoring"
    ["batch_config"] false [batch_config] ∅
    = Returned {[ "batch_config" := batch_config ]}.
Proof. vm_compute. reflexivity. Qed.

(* ===================================================================== *)
(** ** [dict.update] *)
(* ===================================================================== *)





(* ===================================================================== *)
(** ** The single-item pipeline *)
(* ===================================================================== *)

Section PipelineFacts.
Import EnhancedContentCreationService.
Context {E : Type} `{Clock E}.

Implicit Types base : ContentCreationService.t E.

(** The public entry point: an invalid request is refused before any
    stage runs; a valid one gets the outcome of the pipeline. *)
Lemma create_content_with_pipeline_invalid (self : t E)
    (request : gmap string pyval) (max_retries timeout : pyval) (w : World E) :
  get_category (settings self) "content" !! "max_retries" = Some max_retries →
  get_category (settings self) "content" !! "processing_timeout" = Some timeout →
  _validate_content_request request = false →
  create_content_with_pipeline self request w
    = (Returned (result_error "Invalid request"), w).
Proof.
  intros Hmr Hto Hbad. unfold create_content_with_pipeline, dict_getitem.
  rewrite Hmr, Hto. unfold_monad. by rewrite Hbad.
Qed.

Lemma execute_pipeline_method_call (self : t E)
    (request max_retries timeout : pyval) (w : World E) :
  co_call (execute_pipeline_method self) [request; max_retries; timeout] ∅ w
    = _execute_pipeline self request max_retries timeout w.
Proof.
  unfold execute_pipeline_method. simpl.
  unfold mbind at 1, M_bind at 1, bind at 1, lift at 1.
  destruct (bind_pipeline_arguments request max_retries timeout)
    as (locals & -> & -> & -> & ->).
  reflexivity.
Qed.

Lemma create_content_with_pipeline_valid (self : t E)
    (request : gmap string pyval) (max_retries timeout : pyval) (w : World E) :
  get_category (settings self) "content" !! "max_retries" = Some max_retries →
  get_category (settings self) "content" !! "processing_timeout" = Some timeout →
  _validate_content_request request = true →
  fst (create_content_with_pipeline self request w)
    = fst (_execute_pipeline self (PDict request) max_retries timeout w) ∧
  ext (snd (create_content_with_pipeline self request w))
    = ext (snd (_execute_pipeline self (PDict request) max_retries timeout w)).
Proof.
  intros Hmr Hto Hok.
  assert (Heq : create_content_with_pipeline self request w =
                PerformanceMonitor.monitor (performance_monitor self)
                  "create_content_pipeline" (execute_pipeline_method self)
                  [PDict request; max_retries; timeout] ∅ w).
  { unfold create_content_with_pipeline, dict_getitem.
    rewrite Hmr, Hto, Hok. reflexivity. }
  rewrite Heq.
  destruct (monitor_eq (performance_monitor self) "create_content_pipeline"
              (execute_pipeline_method self)
              [PDict request; max_retries; timeout] ∅ w) as [h' ->].
  rewrite execute_pipeline_method_call. done.
Qed.

(** *** The stage methods, called on a context *)

Lemma voiceover_missing_script base (context : gmap string pyval) (w : World E) :
  truthy (default PNone (context !! "script")) = false →
  ContentCreationService._generate_voiceover base (PDict context) w
    = (Returned (result_error "Script not found in context"), w).
Proof.
  intros Hfalsy. unfold ContentCreationService._generate_voiceover.
  unfold_monad. simpl. by rewrite Hfalsy.
Qed.

Lemma assets_missing_content base (context : gmap string pyval) (w : World E) :
  truthy (default PNone (context !! "content")) = false →
  ContentCreationService._process_assets base (PDict context) w
    = (Returned (result_error "Content not found in context"), w).
Proof.
  intros Hfalsy. unfold ContentCreationService._process_assets.
  unfold_monad. simpl. by rewrite Hfalsy.
Qed.


(** *** The monitored call of a stage *)

(** A stage method that declares [context] only does not start when it
    is called with the forwarded keywords: the call raises, and the
    resource monitor records it and raises the same exception. *)
Lemma monitored_method_call_raises (rm : ResourceMonitor.t) (name qualname : string)
    (body : pyval → M E ServiceResult) (context : gmap string pyval)
    (max_retries timeout : pyval) (w : World E) :
  ∃ h', ResourceMonitor.execute_with_monitoring rm
          (mkCoroutine name (fun args kwargs =>
             locals ← lift (bind_arguments qualname ["context"] false args kwargs);
             body (locals !!! "context")))
          [PDict context] (forwarded max_retries timeout) w
        = (Raised (TypeError (qualname +:+
                     "() got an unexpected keyword argument 'timeout'")),
           mkWorld (ext w) h').
Proof.
  rewrite execute_with_monitoring_eq. simpl.
  unfold mbind at 1, M_bind at 1, bind at 1, lift at 1.
  rewrite bind_context_forwarded.
  match goal with |- context [ResourceMonitor.finalize ?a ?b ?c ?d ?e ?f ?g] =>
    destruct (finalize_returns a b c d e f g) as [h' Hfin]; rewrite Hfin end.
  simpl. eauto.
Qed.

(** A stage method that takes the options runs its body on the context;
    the monitor adds its metric and nothing else. *)
Lemma monitored_options_call (rm : ResourceMonitor.t) (name qualname : string)
    (body : pyval → M E ServiceResult) (context : gmap string pyval)
    (max_retries timeout : pyval) (w : World E) :
  ∃ h', ResourceMonitor.execute_with_monitoring rm
          (with_options name qualname body)
          [PDict context] (forwarded max_retries timeout) w
        = (fst (body (PDict context) w),
           mkWorld (ext (snd (body (PDict context) w))) h').
Proof.
  rewrite execute_with_monitoring_eq. simpl.
  unfold mbind at 1, M_bind at 1, bind at 1, lift at 1.
  rewrite bind_context_options.
  replace (({[ "context" := PDict context ]} : gmap string pyval) !!! "context")
    with (PDict context) by reflexivity.
  destruct (body (PDict context) w) as [o w1]. simpl.
  match goal with |- context [ResourceMonitor.finalize ?a ?b ?c ?d ?e ?f ?g] =>
    destruct (finalize_returns a b c d e f g) as [h' Hfin]; rewrite Hfin end.
  simpl. eauto.
Qed.

(** *** The pipeline over the stage methods of the repository *)

(** Every run of the pipeline raises the [TypeError] of its first
    monitored call: no stage body starts, nothing of the external world
    is touched, no answer is returned. *)
Lemma inherited_pipeline_raises base pm rm
    (request max_retries timeout : pyval) (w : World E) :
  ∃ h', _execute_pipeline (inherit base pm rm) request max_retries timeout w
        = (Raised (TypeError
             "ContentCreationService._generate_script() got an unexpected keyword argument 'timeout'"),
           mkWorld (ext w) h').
Proof.
  unfold _execute_pipeline, execute_pipeline_body. simpl.
  unfold mbind at 1 2, M_bind at 1 2, bind at 1 2.
  destruct (monitored_method_call_raises rm "_generate_script"
              "ContentCreationService._generate_script"
              (ContentCreationService._generate_script base)
              {[ "request" := request ]} max_retries timeout w) as [h' Hcall].
  unfold ContentCreationService.generate_script_method.
  rewrite Hcall. eauto.
Qed.

(** Nor does the voiceover stage start in a run whose script stage has
    been replaced by one that returns: whatever the script, the monitored
    call of the inherited [_generate_voiceover] raises in the same way. *)
Lemma inherited_voiceover_stage_raises (self : t E) base
    (request max_retries timeout : pyval) (w w1 : World E)
    (r1 : ServiceResult) (d1 : gmap string pyval) :
  _generate_voiceover self = ContentCreationService.generate_voiceover_method base →
  ResourceMonitor.execute_with_monitoring (resource_monitor self)
    (_generate_script self) [PDict {[ "request" := request ]}]
    (forwarded max_retries timeout) w = (Returned r1, w1) →
  success r1 = true →
  data r1 = PDict d1 →
  ∃ h', _execute_pipeline self request max_retries timeout w
        = (Raised (TypeError
             "ContentCreationService._generate_voiceover() got an unexpected keyword argument 'timeout'"),
           mkWorld (ext w1) h').
Proof.
  intros Hvoice Hscript Hok Hd1.
  unfold _execute_pipeline, execute_pipeline_body.
  unfold mbind at 1 2, M_bind at 1 2, bind at 1 2.
  rewrite Hscript. unfold failed. rewrite Hok, Hd1. simpl.
  unfold mbind at 1 2, M_bind at 1 2, bind at 1 2, lift at 1.
  rewrite Hvoice.
  destruct (monitored_method_call_raises (resource_monitor self) "_generate_voiceover"
              "ContentCreationService._generate_voiceover"
              (ContentCreationService._generate_voiceover base)
              (d1 ∪ {[ "request" := request ]}) max_retries timeout w1) as [h' Hcall].
  unfold ContentCreationService.generate_voiceover_method.
  rewrite Hcall. eauto.
Qed.

(** Property X30.  Over the stage methods that the class inherits, the
    public entry point answers no valid request: the monitored call of
    the script stage carries [timeout=] and [max_retries=], the method
    declares [context] only, and the [TypeError] of the call leaves
    [create_content_with_pipeline].  No generator is called: the external
    world is as it was. *)
Theorem inherited_service_raises base pm rm
    (request : gmap string pyval) (max_retries timeout : pyval) (w : World E) :
  get_category (ContentCreationService.settings base) "content" !! "max_retries"
    = Some max_retries →
  get_category (ContentCreationService.settings base) "content" !! "processing_timeout"
    = Some timeout →
  _validate_content_request request = true →
  fst (create_content_with_pipeline (inherit base pm rm) request w)
    = Raised (TypeError
        "ContentCreationService._generate_script() got an unexpected keyword argument 'timeout'") ∧
  ext (snd (create_content_with_pipeline (inherit base pm rm) request w)) = ext w.
Proof.
  intros Hmr Hto Hok.
  destruct (create_content_with_pipeline_valid (inherit base pm rm) request
              max_retries timeout w Hmr Hto Hok) as [-> ->].
  destruct (inherited_pipeline_raises base pm rm (PDict request) max_retries
              timeout w) as [h' ->].
  done.
Qed.

(** *** The pipeline over any stage coroutines *)



End PipelineFacts.

Section OverridingFacts.
Import EnhancedContentCreationService.
Context {E : Type} `{Clock E}.

(** With stage methods that take the forwarded options, a run whose
    script stage succeeds with a falsy [script] ends at the voiceover
    stage: the generator of voiceovers is not called and the run returns
    [Script not found in context]. *)
Lemma overriding_empty_script_fails_at_voiceover
    (base : ContentCreationService.t E) pm rm
    (request max_retries timeout : pyval) (w w1 : World E)
    (d1 : gmap string pyval) :
  ContentCreationService._generate_script base
    (PDict {[ "request" := request ]}) w = (Returned (result_ok (PDict d1)), w1) →
  truthy (default PNone (d1 !! "script")) = false →
  ∃ h', _execute_pipeline (overriding base pm rm) request max_retries timeout w
        = (Returned (result_error "Script not found in context"),
           mkWorld (ext w1) h').
Proof.
  intros Hscript Hfalsy.
  assert (Hctx : truthy (default PNone
                   ((d1 ∪ {[ "request" := request ]}) !! "script")) = false).
  { destruct (d1 !! "script") as [s|] eqn:Hs.
    - by rewrite (lookup_union_Some_l _ _ _ _ Hs).
    - rewrite lookup_union_r by done. by rewrite lookup_singleton_ne. }
  unfold _execute_pipeline, execute_pipeline_body, overriding. simpl.
  unfold mbind at 1 2, M_bind at 1 2, bind at 1 2.
  destruct (monitored_options_call rm "_generate_script" "Overriding._generate_script"
              (ContentCreationService._generate_script base)
              {[ "request" := request ]} max_retries timeout w) as [h1 ->].
  rewrite Hscript. simpl.
  unfold mbind at 1 2, M_bind at 1 2, bind at 1 2, lift at 1. simpl.
  destruct (monitored_options_call rm "_generate_voiceover"
              "Overriding._generate_voiceover"
              (ContentCreationService._generate_voiceover base)
              (d1 ∪ {[ "request" := request ]}) max_retries timeout
              (mkWorld (ext w1) h1)) as [h2 ->].
  rewrite (voiceover_missing_script base _ _ Hctx). simpl. eauto.
Qed.

End OverridingFacts.

(* ===================================================================== *)
(** ** Runs of the sample services *)
(* ===================================================================== *)








(** With stage methods that take the options and an asset stage that
    succeeds, the run returns the context with the request and the keys
    of all three stages. *)
Lemma lenient_pipeline_succeeds :
  ∃ (final : gmap string pyval) w',
    EnhancedContentCreationService._execute_pipeline lenient_service sample_request
      (PInt 3) (PInt 300) sample_world = (Returned (result_ok (PDict final)), w') ∧
    dom final = {[ "request"; "script"; "script_metrics"; "voiceover";
                   "voiceover_metrics"; "processed_assets" ]}.
Proof.
  eexists _, _. split; vm_compute; reflexivity.
Qed.


(* ===================================================================== *)
(** ** Batches *)
(* ===================================================================== *)

Section BatchFacts.
Context {E : Type}.

(** Claim C1, on the code.  Whatever the batch, [create_content_batch]
    returns a failure: the script helper is a plain function, its
    [ServiceResult] is what [await] is applied to, and the handler turns
    the [TypeError] into the answer.  The answer is not a success and
    holds no per-item outcome; the item loop and the row store are not
    reached. *)
Theorem create_content_batch_answers_a_failure
    (self : ContentOrchestrationService.t E) (batch_config : list pyval)
    (w : World E) :
  let answer :=
    result_error "object ServiceResult can't be used in 'await' expression" in
  ContentOrchestrationService.create_content_batch self batch_config w
    = (Returned answer, w) ∧
  success answer = false ∧
  batch_results answer = None.
Proof. split_and!; reflexivity. Qed.

(** The monitored batch creation stops at its [async with]. *)
Lemma monitored_batch_call_raises `{Clock E}
    (self : EnhancedContentOrchestrationService.t E)
    (batch_config : list pyval) (w : World E) :
  ∃ h' : Heap,
    EnhancedContentOrchestrationService.create_content_batch_with_monitoring
      self batch_config w
    = (Raised (TypeError
         "'coroutine' object does not support the asynchronous context manager protocol"),
       mkWorld (ext w) h').
Proof.
  unfold EnhancedContentOrchestrationService.create_content_batch_with_monitoring.
  destruct (monitor_eq
              (EnhancedContentOrchestrationService.performance_monitor self)
              "batch_creation"
              (EnhancedContentOrchestrationService.create_batch_method self)
              [PList batch_config] ∅ w) as [h' ->].
  exists h'.
  assert (Hcall : co_call (EnhancedContentOrchestrationService.create_batch_method self)
                    [PList batch_config] ∅ w
                  = (Raised (TypeError
                       "'coroutine' object does not support the asynchronous context manager protocol"),
                     w)).
  { unfold EnhancedContentOrchestrationService.create_batch_method. simpl.
    unfold mbind at 1, M_bind at 1, bind at 1, lift at 1.
    rewrite bind_batch_config. reflexivity. }
  by rewrite Hcall.
Qed.

(** Claim C5, on the code.  Whatever the batch, the monitored batch
    creation returns nothing: [_batch_monitor] is an [async def], so
    [async with] is handed a coroutine object and raises a [TypeError]
    before the batch is looked at.  The performance monitor raises the
    same exception: no answer comes back, hence no summary, and the
    external world is as it was. *)
Theorem monitored_batch_raises `{Clock E}
    (self : EnhancedContentOrchestrationService.t E)
    (batch_config : list pyval) (w : World E) :
  let run :=
    EnhancedContentOrchestrationService.create_content_batch_with_monitoring
      self batch_config w in
  fst run = Raised (TypeError
    "'coroutine' object does not support the asynchronous context manager protocol") ∧
  ext (snd run) = ext w.
Proof.
  intros run. subst run.
  destruct (monitored_batch_call_raises self batch_config w) as [h' ->].
  done.
Qed.

End BatchFacts.

(** A batch of one request gets an answer without any outcome. *)
Lemma one_request_batch_has_no_outcome :
  let batch_config := [sample_config "intro"] in
  let r := result_error "object ServiceResult can't be used in 'await' expression" in
  ContentOrchestrationService.create_content_batch sample_orchestration
    batch_config sample_world = (Returned r, sample_world) ∧
  batch_results r = None ∧
  ¬ (∃ results : list pyval,
       batch_results r = Some results ∧ length results = length batch_config).
Proof.
  split_and!; [reflexivity|reflexivity|]. intros (results & Hr & _). discriminate Hr.
Qed.

(** Three requests, the second of which would fail its voiceover: the
    call raises and no count is reported. *)
Lemma monitored_sample_batch_raises :
  fst (EnhancedContentOrchestrationService.create_content_batch_with_monitoring
         sample_batch_service sample_batch sample_world)
  = Raised (TypeError
      "'coroutine' object does not support the asynchronous context manager protocol").
Proof. vm_compute. reflexivity. Qed.

(* ===================================================================== *)
(** ** The collector over sequences of calls; the monitors and the
       telemetry middleware *)
(* ===================================================================== *)

Section CollectorSequences.
Import MetricsCollector.

Lemma record_all_spec (self : t) (cs : list recording) :
  ∀ h, wf self h →
    wf self (record_all self cs h) ∧
    ∀ op, default [] (observe self (record_all self cs h) !! op)
          = default [] (observe self h !! op) ++ map entry_of (recordings_for op cs).
Proof.
  induction cs as [|c rest IH]; intros h Hwf; simpl.
  - split; [done|]. intros op. by rewrite app_nil_r.
  - destruct (record_metric_at_spec (rec_now c) self (rec_operation c) (rec_duration c)
                (rec_success c) (rec_metadata c) h Hwf) as (h1 & Heq & Hwf1 & Hobs).
    rewrite Heq. simpl. destruct (IH h1 Hwf1) as [Hwf' Hall]. split; [done|].
    intros op. rewrite Hall, Hobs. unfold recordings_for. simpl.
    case_bool_decide as Hop.
    + subst op. rewrite lookup_insert_eq. simpl. by rewrite <- app_assoc.
    + rewrite lookup_insert_ne by done. done.
Qed.

(** Property X1.  [record_metric] never drops, reorders or duplicates:
    after any sequence of calls, the list the collector holds for an
    operation is the list it held before followed by one entry for each
    call made for that operation, in call order, each with the duration,
    flag and clock reading of its call and with [{}] for a missing
    metadata. *)
Theorem record_metric_keeps_every_call (self : t) (cs : list recording)
    (h : Heap) (op : string) :
  wf self h →
  default [] (observe self (record_all self cs h) !! op)
    = default [] (observe self h !! op) ++ map entry_of (recordings_for op cs).
Proof. intros Hwf. by destruct (record_all_spec self cs h Hwf) as [_ ->]. Qed.

(** The locations a returned mapping holds are the collector's. *)
Lemma snapshot_dict self h r h1 :
  wf self h → get_metrics self None h = (Returned r, h1) →
  read_dict r h1 = read_dict (metrics self) h ∧ r = next h ∧ wf self h1 ∧
  next h1 = S (next h) ∧ lists h1 = lists h ∧ r ≠ metrics self ∧
  read_dict (metrics self) h1 = read_dict (metrics self) h.
Proof.
  intros Hwf. unfold get_metrics. simpl. intros [= <- <-].
  pose proof (wf_metrics_lt _ _ Hwf) as Hlt.
  destruct (alloc_dict_frame (read_dict (metrics self) h) h self Hwf) as (Hwf1 & _ & _).
  { intros k l. by apply wf_entry_lt. }
  split_and!; try done.
  - unfold read_dict. simpl. by rewrite lookup_insert_eq.
  - lia.
  - unfold read_dict. simpl. rewrite lookup_insert_ne by lia. done.
Qed.

(** Property X2.  The mapping returned by [get_metrics()] is a copy of
    the top level only.  After a later [record_metric], the mapping shows
    the new entry under an operation it already contained, still lacks an
    operation that was first recorded after the call, and is unchanged at
    every other operation. *)
Theorem snapshot_follows_known_operations (self : t) (h h1 : Heap) (r : loc)
    (c : recording) :
  wf self h →
  get_metrics self None h = (Returned r, h1) →
  let h2 := snd (record_metric_at (rec_now c) self (rec_operation c)
                   (rec_duration c) (rec_success c) (rec_metadata c) h1) in
  (∀ ms, observe self h !! rec_operation c = Some ms →
         view r h2 !! rec_operation c = Some (ms ++ [entry_of c])) ∧
  (observe self h !! rec_operation c = None →
   view r h2 !! rec_operation c = None) ∧
  (∀ op, op ≠ rec_operation c → view r h2 !! op = observe self h !! op).
Proof.
  intros Hwf Hget h2.
  destruct (snapshot_dict self h r h1 Hwf Hget)
    as (Hrd & Hr & Hwf1 & Hnext & Hlists & Hne & Hself).
  unfold record_metric_at in h2.
  destruct (defaultdict_getitem self (rec_operation c) h1) as [l h1'] eqn:Hdg.
  destruct (defaultdict_getitem_spec _ _ _ _ _ Hwf1 Hdg)
    as (Hwf1' & Hl & Hnx & Hrd' & Hframe & Hnew & Hdicts).
  simpl in h2. subst h2.
  assert (Hrdr : ∀ x, read_dict r (write_list l x h1') = read_dict (metrics self) h).
  { intros x. unfold read_dict at 1. simpl. rewrite Hdicts by done.
    fold (read_dict r h1). done. }
  assert (Hlist_old : ∀ l', l' < next h → read_list l' h1' = read_list l' h).
  { intros l' Hl'. rewrite Hframe by lia. unfold read_list. by rewrite Hlists. }
  assert (Hentry : ∀ k l', read_dict (metrics self) h !! k = Some l' → l' < next h).
  { intros k l'. apply wf_entry_lt. done. }
  split_and!.
  - intros ms Hms. rewrite observe_lookup in Hms.
    destruct (read_dict (metrics self) h !! rec_operation c) as [l0|] eqn:Hl0; [|done].
    simpl in Hms. inversion Hms as [Hms']. clear Hms.
    assert (l = l0) as ->.
    { unfold defaultdict_getitem in Hdg. rewrite Hself, Hl0 in Hdg. by inversion Hdg. }
    unfold view. rewrite lookup_fmap, Hrdr, Hl0. simpl. f_equal.
    unfold read_list at 1. simpl. rewrite lookup_insert_eq. simpl.
    rewrite (Hlist_old l0) by eauto. done.
  - intros Hnone. rewrite observe_lookup in Hnone.
    unfold view. rewrite lookup_fmap, Hrdr.
    destruct (read_dict (metrics self) h !! rec_operation c); [done|done].
  - intros op Hop. unfold view. rewrite lookup_fmap, Hrdr, observe_lookup.
    destruct (read_dict (metrics self) h !! op) as [l'|] eqn:Hl'; [|done]. simpl.
    f_equal. assert (l' ≠ l).
    { intros ->. destruct Hwf1' as (_ & _ & Hinj).
      apply Hop. apply (Hinj op (rec_operation c) l); rewrite Hrd'.
      - rewrite lookup_insert_ne by done. by rewrite Hself.
      - by rewrite lookup_insert_eq. }
    unfold read_list at 1. simpl. rewrite lookup_insert_ne by done.
    apply Hlist_old. eauto.
Qed.

(** Property X3.  [clear_metrics] returns and leaves the collector with
    no operation; what is recorded afterwards starts from empty lists.  A
    mapping that [get_metrics()] returned before the clear keeps showing
    what the collector held then, whatever is recorded after the clear. *)
Theorem clear_metrics_spares_snapshots (self : t) (h h1 : Heap) (r : loc)
    (cs : list recording) :
  wf self h →
  get_metrics self None h = (Returned r, h1) →
  let h2 := snd (clear_metrics self h1) in
  fst (clear_metrics self h1) = Returned tt ∧
  observe self h2 = ∅ ∧
  (∀ op, default [] (observe self (record_all self cs h2) !! op)
         = map entry_of (recordings_for op cs)) ∧
  view r (record_all self cs h2) = observe self h.
Proof.
  intros Hwf Hget h2.
  destruct (snapshot_dict self h r h1 Hwf Hget)
    as (Hrd & Hr & Hwf1 & Hnext & Hlists & Hne & Hself).
  assert (Hwf2 : wf self h2).
  { destruct Hwf1 as (Hh & Hs & Hinj). unfold h2, clear_metrics. simpl. split_and!.
    - apply heap_wf_write_dict; [done|by apply wf_metrics_lt; split_and!|].
      intros k l. by rewrite lookup_empty.
    - simpl. rewrite lookup_insert_eq. eauto.
    - intros k1 k2 l. unfold read_dict. simpl. rewrite lookup_insert_eq. simpl.
      by rewrite lookup_empty. }
  assert (Hobs2 : observe self h2 = ∅).
  { unfold observe, h2, clear_metrics, read_dict. simpl.
    rewrite lookup_insert_eq. simpl. by rewrite fmap_empty. }
  split_and!; try done.
  - intros op. destruct (record_all_spec self cs h2 Hwf2) as [_ ->].
    rewrite Hobs2, lookup_empty. done.
  - (* the snapshot only refers to lists older than the clear *)
    assert (Hinv : ∀ cs' h', wf self h' → next h1 ≤ next h' →
              read_dict r h' = read_dict (metrics self) h →
              (∀ l', l' < next h → read_list l' h' = read_list l' h) →
              (∀ k l', read_dict (metrics self) h' !! k = Some l' → next h ≤ l') →
              view r (record_all self cs' h') = observe self h).
    { clear cs. induction cs' as [|c rest IH]; intros h' Hwf' Hn Hrdr Hold Hfresh; simpl.
      - unfold view, observe. rewrite Hrdr. apply map_fmap_ext.
        intros k l' Hk. apply Hold. by eapply wf_entry_lt.
      - unfold record_metric_at.
        destruct (defaultdict_getitem self (rec_operation c) h') as [l h''] eqn:Hdg.
        destruct (defaultdict_getitem_spec _ _ _ _ _ Hwf' Hdg)
          as (Hwf'' & Hl & Hnx & Hrd' & Hframe & Hnew & Hdicts).
        simpl. 
        assert (Hlge : next h ≤ l).
        { destruct (read_dict (metrics self) h' !! rec_operation c) as [l0|] eqn:Hl0.
          - unfold defaultdict_getitem in Hdg. rewrite Hl0 in Hdg.
            inversion Hdg; subst. eauto.
          - destruct (Hnew eq_refl) as [_ ->]. lia. }
        apply IH.
        + destruct Hwf'' as (Hh & Hs & Hinj). split_and!; try done.
          by apply heap_wf_write_list.
        + simpl. lia.
        + unfold read_dict at 1. simpl. rewrite Hdicts by done. exact Hrdr.
        + intros l' Hl'. unfold read_list at 1. simpl.
          rewrite lookup_insert_ne by lia. fold (read_list l' h'').
          rewrite Hframe by lia. by apply Hold.
        + intros k l'. 
          change (read_dict (metrics self) (write_list l _ h'')) with (read_dict (metrics self) h'').
          rewrite Hrd'. destruct (decide (k = rec_operation c)) as [->|Hk].
          * rewrite lookup_insert_eq. intros [= <-]. done.
          * rewrite lookup_insert_ne by done. apply Hfresh. }
    apply Hinv.
    + exact Hwf2.
    + unfold h2, clear_metrics. simpl. lia.
    + unfold h2, clear_metrics, read_dict. simpl. rewrite lookup_insert_ne by done.
      exact Hrd.
    + intros l' Hl'. unfold h2, clear_metrics, read_list. simpl. by rewrite Hlists.
    + intros k l'. unfold h2, clear_metrics, read_dict. simpl.
      rewrite lookup_insert_eq. simpl. by rewrite lookup_empty.
Qed.
End CollectorSequences.

Section MonitorRecords.
Context {E R : Type} `{Clock E}.

(** Property X4.  A function wrapped by [PerformanceMonitor.monitor]
    gives its caller the outcome of the one call of the function, value or
    exception, and the external world that call left.  The call adds
    exactly one entry to the monitor's collector, under the operation
    name, with the elapsed time, empty metadata and a success flag that is
    false exactly when the call raised an [Exception]. *)
Theorem monitor_records_outcome (self : PerformanceMonitor.t) (name : string)
    (func : Coroutine E R) (args : list pyval) (kwargs : gmap string pyval)
    (w : World E) :
  let c := PerformanceMonitor.metrics_collector self in
  let o := fst (co_call func args kwargs w) in
  let w1 := snd (co_call func args kwargs w) in
  let run := PerformanceMonitor.monitor self name func args kwargs w in
  MetricsCollector.wf c (heap w1) →
  fst run = o ∧
  ext (snd run) = ext w1 ∧
  MetricsCollector.observe c (heap (snd run)) =
    <[name := default [] (MetricsCollector.observe c (heap w1) !! name) ++
              [mkMetric (time_now (ext w1) - time_now (ext w)) (time_now (ext w1))
                 (success_flag o) ∅]]>
      (MetricsCollector.observe c (heap w1)).
Proof.
  intros c o w1 run Hwf. subst run o w1 c.
  unfold PerformanceMonitor.monitor.
  unfold mbind, M_bind, bind, time_time, try_finally. simpl.
  rewrite try_except_reraise.
  destruct (co_call func args kwargs w) as [o w1]. simpl in *.
  unfold MetricsCollector.record_metric.
  match goal with |- context [MetricsCollector.record_metric_at ?n ?c ?op ?d ?ok ?md ?h] =>
    destruct (record_metric_at_spec n c op d ok md h Hwf) as (h' & -> & _ & Hobs) end.
  simpl. split_and!; try done.
Qed.

(** Property X5.  For a request that carries a peer address,
    [TelemetryMiddleware.__call__] gives the outcome of [call_next] and
    adds one entry under [METHOD_path] whose metadata hold the peer
    address and the status code of the response ([None] when [call_next]
    raised or the response has no status code). *)
Theorem telemetry_records_request (self : TelemetryMiddleware.t)
    (request : TelemetryMiddleware.Request) (host : string)
    (call_next : TelemetryMiddleware.Request → M E TelemetryMiddleware.Response)
    (w : World E) :
  let c := TelemetryMiddleware.metrics_collector self in
  let o := fst (call_next request w) in
  let w1 := snd (call_next request w) in
  let run := TelemetryMiddleware.__call__ self request call_next w in
  let name := TelemetryMiddleware.method request +:+ "_" +:+
              TelemetryMiddleware.url_path request in
  TelemetryMiddleware.client request = Some host →
  MetricsCollector.wf c (heap w1) →
  fst run = o ∧
  ext (snd run) = ext w1 ∧
  ∃ md : gmap string pyval,
    MetricsCollector.observe c (heap (snd run)) =
      <[name := default [] (MetricsCollector.observe c (heap w1) !! name) ++
                [mkMetric (time_now (ext w1) - time_now (ext w)) (time_now (ext w1))
                   (success_flag o) md]]>
        (MetricsCollector.observe c (heap w1)) ∧
    md !! "client_ip" = Some (PStr host) ∧
    md !! "status_code" =
      Some (match o with
            | Returned r => default PNone (TelemetryMiddleware.status_code r)
            | Raised _ => PNone
            end).
Proof.
  intros c o w1 run name Hclient Hwf. subst run o w1 c name.
  unfold TelemetryMiddleware.__call__.
  unfold mbind, M_bind, bind, time_time, try_finally, lift. simpl.
  rewrite try_except_reraise.
  destruct (call_next request w) as [o w1]. simpl in *.
  unfold TelemetryMiddleware.metadata_of. rewrite Hclient.
  unfold MetricsCollector.record_metric.
  match goal with |- context [MetricsCollector.record_metric_at ?n ?c ?op ?d ?ok ?md ?h] =>
    destruct (record_metric_at_spec n c op d ok md h Hwf) as (h' & -> & _ & Hobs) end.
  simpl. split_and!; try done.
  eexists. split; [exact Hobs|]. simpl. split.
  - by simplify_map_eq.
  - destruct o; by simplify_map_eq.
Qed.

(** Property X6.  For a request whose [client] is [None], the [finally]
    clause of [TelemetryMiddleware.__call__] raises [AttributeError] while
    it builds the metadata: the caller gets this error in place of the
    outcome of [call_next], response or exception, and no metric is
    recorded. *)
Theorem telemetry_without_client_raises (self : TelemetryMiddleware.t)
    (request : TelemetryMiddleware.Request)
    (call_next : TelemetryMiddleware.Request → M E TelemetryMiddleware.Response)
    (w : World E) :
  TelemetryMiddleware.client request = None →
  TelemetryMiddleware.__call__ self request call_next w
    = (Raised (AttributeError "'NoneType' object has no attribute 'host'"),
       snd (call_next request w)).
Proof.
  intros Hclient. unfold TelemetryMiddleware.__call__.
  unfold mbind, M_bind, bind, time_time, try_finally, lift. simpl.
  rewrite try_except_reraise.
  destruct (call_next request w) as [o w1]. simpl.
  unfold TelemetryMiddleware.metadata_of. rewrite Hclient. done.
Qed.
End MonitorRecords.

(* ===================================================================== *)
(** ** Assets and contents *)
(* ===================================================================== *)

(** Property X7.  [_validate_asset] answers [True] exactly for an asset
    that has a file no larger than [max_file_size], whose type is mapped
    to a list of the settings, and whose sniffed mime type is in that
    list.  An asset of any type other than image, audio or video is never
    accepted, and no [Exception] leaves the method. *)
Theorem validate_asset_accepts_iff (asset : ContentAsset) (settings : AssetSettings) :
  (_validate_asset asset settings = Returned true ↔
   ∃ (f : File) (limit : Z) (mime name : string) (allowed : list string),
     asset_file asset = Some f ∧
     max_file_size settings = Some limit ∧ (file_size f ≤ limit)%Z ∧
     head_mime f = Returned mime ∧
     type_mapping !! asset_type asset = Some name ∧
     allowed_types settings !! name = Some allowed ∧
     mime ∈ allowed) ∧
  (asset_type asset ∉ ["image"; "audio"; "video"] →
   _validate_asset asset settings ≠ Returned true) ∧
  (∀ e, _validate_asset asset settings = Raised e → is_Exception e = false).
Proof.
  assert (Hiff : _validate_asset asset settings = Returned true ↔
   ∃ (f : File) (limit : Z) (mime name : string) (allowed : list string),
     asset_file asset = Some f ∧
     max_file_size settings = Some limit ∧ (file_size f ≤ limit)%Z ∧
     head_mime f = Returned mime ∧
     type_mapping !! asset_type asset = Some name ∧
     allowed_types settings !! name = Some allowed ∧
     mime ∈ allowed).
  { unfold _validate_asset, validate_asset_body. unfold_outcome. split.
    - intros Hv.
      destruct (max_file_size settings) as [limit|] eqn:Hmax; [|done].
      destruct (asset_file asset) as [f|] eqn:Hf.
      + destruct (limit <? file_size f)%Z eqn:Hlt; [done|].
        destruct (head_mime f) as [mime|e] eqn:Hm; [|by destruct (is_Exception e)].
        destruct (type_mapping !! asset_type asset) as [name|] eqn:Hn; [|done].
        destruct (allowed_types settings !! name) as [allowed|] eqn:Ha; [|done].
        assert (Hd : bool_decide (mime ∈ allowed) = true) by (by injection Hv).
        apply bool_decide_eq_true in Hd.
        exists f, limit, mime, name, allowed. split_and!; try done; by apply Z.ltb_ge.
      + destruct (limit <? 0)%Z; done.
    - intros (f & limit & mime & name & allowed & Hf & Hmax & Hle & Hm & Hn & Ha & Hin).
      rewrite Hmax, Hf. apply Z.ltb_ge in Hle. rewrite Hle, Hm, Hn, Ha.
      by rewrite (bool_decide_eq_true_2 _ Hin). }
  split_and!.
  - exact Hiff.
  - intros Hty Hv. apply Hiff in Hv as (f & limit & mime & name & allowed & _ & _ & _ & _ & Hn & _).
    apply Hty. unfold type_mapping in Hn.
    destruct (decide (asset_type asset = "image")) as [->|?];
      [apply (bool_decide_unpack _); vm_compute; exact I|].
    destruct (decide (asset_type asset = "audio")) as [->|?];
      [apply (bool_decide_unpack _); vm_compute; exact I|].
    destruct (decide (asset_type asset = "video")) as [->|?];
      [apply (bool_decide_unpack _); vm_compute; exact I|].
    by simplify_map_eq.
  - intros e. unfold _validate_asset.
    destruct (validate_asset_body asset settings) as [b|e0]; [done|].
    destruct (is_Exception e0) eqn:He; [done|]. by intros [= <-].
Qed.

Section ProcessingFacts.
Context {E : Type}.

(** Property X8.  [_process_single_asset] answers an asset whose type
    is none of image, video and audio with the failure [Unsupported asset
    type: <type>], without touching the world.  On an object of a class
    that defines none of the three processors, as [ContentCreationService]
    and its enhanced subclass, it answers a failure for every asset: the
    [AttributeError] of the missing method is caught. *)
Theorem process_single_asset_failures (self : AssetProcessing.t E)
    (asset : ContentAsset) (settings : AssetSettings) (w : World E) :
  (asset_type asset ∉ ["image"; "video"; "audio"] →
   AssetProcessing._process_single_asset self asset settings w
     = (Returned (result_error ("Unsupported asset type: " +:+ asset_type asset)), w)) ∧
  (∀ name, self = AssetProcessing.of_class name →
     ∃ message,
       AssetProcessing._process_single_asset self asset settings w
         = (Returned (result_error message), w)).
Proof.
  split.
  - intros Hty. unfold AssetProcessing._process_single_asset.
    assert (String.eqb (asset_type asset) "image" = false) as ->.
    { apply String.eqb_neq. intros Heq. apply Hty. rewrite Heq.
      apply (bool_decide_unpack _). vm_compute. exact I. }
    assert (String.eqb (asset_type asset) "video" = false) as ->.
    { apply String.eqb_neq. intros Heq. apply Hty. rewrite Heq.
      apply (bool_decide_unpack _). vm_compute. exact I. }
    assert (String.eqb (asset_type asset) "audio" = false) as ->.
    { apply String.eqb_neq. intros Heq. apply Hty. rewrite Heq.
      apply (bool_decide_unpack _). vm_compute. exact I. }
    reflexivity.
  - intros name ->.
    unfold AssetProcessing._process_single_asset, AssetProcessing.call_method,
      AssetProcessing.of_class. simpl.
    destruct (String.eqb (asset_type asset) "image"); [by eexists|].
    destruct (String.eqb (asset_type asset) "video"); [by eexists|].
    destruct (String.eqb (asset_type asset) "audio"); by eexists.
Qed.

(** Property X9.  [ContentService.create_content] compares the length
    of the script with [max_script_length] (10000 when the setting is
    missing).  A longer script is refused before [Content.objects.create]
    is called; any other script is handed to it with the three other
    fields, and the answer is the created row, or a failure carrying the
    text of the [Exception] that the creation raised. *)
Theorem create_content_length_limit (self : ContentService.t E)
    (creator content_type title : pyval) (script : string) (limit : Z)
    (w : World E) :
  ContentService.max_script_length self = PInt limit →
  let fields : gmap string pyval :=
    {[ "creator" := creator; "content_type" := content_type;
       "title" := title; "script" := PStr script ]} in
  let run := ContentService.create_content self creator content_type title
               (PStr script) w in
  ((limit < Z.of_nat (String.length script))%Z →
   run = (Returned (result_error "Script exceeds maximum length"), w)) ∧
  ((Z.of_nat (String.length script) ≤ limit)%Z →
   ∀ content e',
     ContentService.objects_create self fields (ext w) = (Returned content, e') →
     run = (Returned (result_ok content), mkWorld e' (heap w))) ∧
  ((Z.of_nat (String.length script) ≤ limit)%Z →
   ∀ e e',
     ContentService.objects_create self fields (ext w) = (Raised e, e') →
     is_Exception e = true →
     run = (Returned (result_error (exn_str e)), mkWorld e' (heap w))).
Proof.
  intros Hlimit fields run. subst run. unfold ContentService.create_content.
  unfold_monad. simpl. rewrite Hlimit. simpl. split_and!.
  - intros Hlt. apply Z.ltb_lt in Hlt. by rewrite Hlt.
  - intros Hle content e' Hc. apply Z.ltb_ge in Hle. rewrite Hle.
    fold fields. by rewrite Hc.
  - intros Hle e e' Hc He. apply Z.ltb_ge in Hle. rewrite Hle.
    fold fields. rewrite Hc. by rewrite He.
Qed.

(** Property X10.  [ContentService.update_content] with a [script]
    longer than the limit answers [Script exceeds maximum length] and
    leaves the object and the world as they were: no attribute is set and
    [save] is not called. *)
Theorem update_content_rejects_long_script (self : ContentService.t E)
    (content data : gmap string pyval) (script : string) (limit : Z) (w : World E) :
  ContentService.max_script_length self = PInt limit →
  data !! "script" = Some (PStr script) →
  (limit < Z.of_nat (String.length script))%Z →
  ContentService.update_content self content data w
    = (Returned (result_error "Script exceeds maximum length", content), w).
Proof.
  intros Hlimit Hs Hlt. unfold ContentService.update_content.
  rewrite Hs, Hlimit. unfold_outcome. simpl.
  apply Z.ltb_lt in Hlt. by rewrite Hlt.
Qed.

(** Property X11.  [ContentService.update_content] sets the attributes
    before it saves.  For an update that passes the length check (it
    carries no [script], or one whose length is within the limit), when
    [save] raises an [Exception] the answer is a failure carrying its
    text, and the object the caller passed in already has every new
    value. *)
Theorem update_content_failed_save_keeps_changes (self : ContentService.t E)
    (content data : gmap string pyval) (e : exn) (e' : E) (w : World E) :
  (∀ script : pyval, data !! "script" = Some script →
     ∃ n limit : Z, py_len script = Returned n ∧
                    ContentService.max_script_length self = PInt limit ∧
                    (n ≤ limit)%Z) →
  ContentService.save self (data ∪ content) (ext w) = (Raised e, e') →
  is_Exception e = true →
  ContentService.update_content self content data w
    = (Returned (result_error (exn_str e), data ∪ content), mkWorld e' (heap w)) ∧
  ∀ k v, data !! k = Some v → (data ∪ content) !! k = Some v.
Proof.
  intros Hcheck Hsave He. unfold ContentService.update_content.
  split; [|intros k v Hk; by apply lookup_union_Some_l].
  destruct (data !! "script") as [script|] eqn:Hs.
  - destruct (Hcheck script eq_refl) as (n & limit & Hn & Hlimit & Hle).
    rewrite Hn, Hlimit. unfold_outcome. simpl.
    apply Z.ltb_ge in Hle. rewrite Hle. by rewrite Hsave, He.
  - by rewrite Hsave, He.
Qed.

(** Property X12.  [AssetManagementService.upload_asset] calls
    [ContentAsset.objects.create] only for an asset type among image,
    audio and video, a [Content] instance, and a file whose sniffed mime
    type is in the [valid_mimes] list of the type.  In every other case
    the world is left unchanged and the answer is a failure (or the
    [BaseException] of the sniffer); in the accepted case the answer is
    the one of the creation. *)
Theorem upload_asset_rejects_before_create settings objects_create
    (content : pyval) (file_data : File) (asset_type : string) (w : World E) :
  let self := AssetManagementService.base (E:=E) settings objects_create in
  let accepted :=
    match full_mime file_data with
    | Returned mime =>
        bool_decide (asset_type ∈ ["image"; "audio"; "video"]) &&
        AssetManagementService.is_content content &&
        bool_decide (mime ∈ default [] (AssetManagementService.valid_mimes !! asset_type))
    | Raised _ => false
    end in
  let run := AssetManagementService.upload_asset self content file_data asset_type w in
  (accepted = false →
   snd run = w ∧
   match fst run with
   | Returned r => success r = false
   | Raised e => is_Exception e = false
   end) ∧
  (accepted = true →
   ∃ mime, full_mime file_data = Returned mime ∧
     run = match objects_create content asset_type file_data mime (ext w) with
           | (Returned row, e') =>
               (Returned (result_ok (PDict {[ "asset" := row ]})), mkWorld e' (heap w))
           | (Raised e, e') =>
               if is_Exception e
               then (Returned (result_error (exn_str e)), mkWorld e' (heap w))
               else (Raised e, mkWorld e' (heap w))
           end).
Proof.
  intros self accepted run. subst self run accepted.
  unfold AssetManagementService.upload_asset, AssetManagementService.base,
    AssetManagementService._validate.
  cbn [AssetManagementService._validate_method AssetManagementService.objects_create].
  unfold_monad.
  rewrite lookup_insert_eq.
  rewrite lookup_insert_ne by done. rewrite lookup_insert_eq.
  rewrite lookup_insert_ne by done. rewrite lookup_insert_ne by done.
  rewrite lookup_singleton_eq.
  rewrite lookup_insert_ne by done. rewrite lookup_insert_ne by done.
  rewrite lookup_singleton_ne by done.
  cbn [AssetManagementService.is_asset_type].
  destruct (bool_decide (asset_type ∈ ["image"; "audio"; "video"])) eqn:Hty.
  2:{ split; [|by destruct (full_mime file_data)]. done. }
  destruct (AssetManagementService.is_content content) eqn:Hc.
  2:{ split; [|by destruct (full_mime file_data)]. done. }
  destruct (full_mime file_data) as [mime|e] eqn:Hm.
  - cbn [andb].
    destruct (bool_decide (mime ∈ default [] (AssetManagementService.valid_mimes !! asset_type)))
      eqn:Hmime.
    + split; [done|]. intros _. exists mime. split; [done|].
      cbn.
      destruct (objects_create content asset_type file_data mime (ext w)) as [[row|e] e'];
        [done|]. by destruct (is_Exception e).
    + split; [|done]. intros _. cbn. done.
  - split; [|done]. intros _.
    destruct (is_Exception e) eqn:He; cbn; rewrite ?He; split; done.
Qed.

End ProcessingFacts.

(* ===================================================================== *)
(** ** Content management and the script batch *)
(* ===================================================================== *)

Section ManagementFacts.
Context {E : Type}.
Import ContentManagementService.

(** The validator raises nothing but a [ValidationError]. *)
Lemma management_validate_raises_exception (content_data : pyval) (e : exn) :
  _validate content_data = Raised e → is_Exception e = true.
Proof.
  unfold _validate. intros Hv.
  destruct content_data; try (by inversion Hv).
  repeat (case_match; try (by inversion Hv)).
Qed.


(** Property X16.  An item that [ContentManagementService._validate]
    refuses is answered by [_process_single_content] with a failure that
    carries the text of the validation error; the world is unchanged, so
    [Content.objects.create] was not called. *)
Theorem invalid_item_is_not_created (self : t E) (content_data : pyval)
    (e : exn) (w : World E) :
  _validate content_data = Raised e →
  _process_single_content self content_data w
    = (Returned (result_error (exn_str e)), w).
Proof.
  intros Hv. pose proof (management_validate_raises_exception _ _ Hv) as He.
  unfold _process_single_content. unfold_monad. rewrite Hv. by rewrite He.
Qed.

(** Property X17.  [_process_single_content] reads the fields
    [content_type], [title], [script], [status] and [metadata] of an item
    and nothing else: two items that agree on these five are processed
    alike.  The [voiceover] and the metrics that [create_content_batch]
    puts into an item never reach [Content.objects.create]. *)
Theorem process_single_content_reads_five_fields (self : t E)
    (d d' : gmap string pyval) (w : World E) :
  (∀ k, k ∈ ["content_type"; "title"; "script"; "status"; "metadata"] →
        d !! k = d' !! k) →
  _process_single_content self (PDict d) w = _process_single_content self (PDict d') w.
Proof.
  intros Hsame.
  assert (d !! "content_type" = d' !! "content_type") as H1
    by (apply Hsame; apply (bool_decide_unpack _); vm_compute; exact I).
  assert (d !! "title" = d' !! "title") as H2
    by (apply Hsame; apply (bool_decide_unpack _); vm_compute; exact I).
  assert (d !! "script" = d' !! "script") as H3
    by (apply Hsame; apply (bool_decide_unpack _); vm_compute; exact I).
  assert (d !! "status" = d' !! "status") as H4
    by (apply Hsame; apply (bool_decide_unpack _); vm_compute; exact I).
  assert (d !! "metadata" = d' !! "metadata") as H5
    by (apply Hsame; apply (bool_decide_unpack _); vm_compute; exact I).
  unfold _process_single_content, _validate, py_getitem.
  by rewrite H1, H2, H3, H4, H5.
Qed.


End ManagementFacts.

Section GeneratorFacts.
Import ContentGenerationUtility.

(** The submit loop on configs that all carry a content type. *)
Lemma submit_all_dicts (self : t) (configs : list pyval) :
  Forall (fun config => ∃ d, config = PDict d ∧ is_Some (d !! "content_type")) configs →
  submit_all self configs
    = Returned (map (fun config =>
                       match config with
                       | PDict d => generate_script self
                                      (default PNone (d !! "content_type"))
                                      (default PNone (d !! "parameters"))
                       | _ => result_error ""
                       end) configs).
Proof.
  induction 1 as [|config rest (d & -> & [v Hv]) _ IH]; [done|].
  simpl. unfold_outcome. rewrite Hv, IH. done.
Qed.

(** Property X19.  When every config is a dict with a [content_type],
    [batch_generate_scripts] succeeds with one entry per config, at the
    index of the config: the data of [generate_script] on the config's
    content type and parameters when that call succeeds, [None] when it
    fails. *)
Theorem batch_generate_scripts_aligned (self : t) (configs : list pyval) :
  Forall (fun config => ∃ d, config = PDict d ∧ is_Some (d !! "content_type")) configs →
  ∃ results : list pyval,
    batch_generate_scripts self configs = result_ok (PList results) ∧
    length results = length configs ∧
    ∀ (i : nat) (d : gmap string pyval) (content_type : pyval),
      configs !! i = Some (PDict d) →
      d !! "content_type" = Some content_type →
      results !! i =
        Some (data_or_none (generate_script self content_type
                              (default PNone (d !! "parameters")))).
Proof.
  intros Hall. unfold batch_generate_scripts. rewrite (submit_all_dicts _ _ Hall).
  eexists. split; [done|]. split; [by rewrite !length_map|].
  intros i d content_type Hi Hct. rewrite !list_lookup_fmap, Hi. simpl.
  by rewrite Hct.
Qed.

(** Property X20.  A single config without [content_type] fails the
    whole of [batch_generate_scripts]: the answer is a failure with the
    text of the [KeyError] and holds no result for the configs before
    it. *)
Theorem batch_generate_scripts_missing_content_type (self : t)
    (configs : list pyval) (i : nat) (d : gmap string pyval) :
  configs !! i = Some (PDict d) →
  d !! "content_type" = None →
  (∀ j config, j < i → configs !! j = Some config →
     ∃ d', config = PDict d' ∧ is_Some (d' !! "content_type")) →
  batch_generate_scripts self configs
    = mkServiceResult false PNone
        (Some "Batch script generation failed: 'content_type'").
Proof.
  intros Hi Hd Hbefore. unfold batch_generate_scripts.
  assert (submit_all self configs = Raised (KeyError "content_type")) as ->; [|done].
  revert i Hi Hbefore. induction configs as [|config rest IH]; intros i Hi Hbefore.
  - done.
  - destruct i as [|i]; simpl in *.
    + inversion Hi; subst. unfold_outcome. unfold py_getitem. by rewrite Hd.
    + destruct (Hbefore 0 config) as (d' & -> & [v Hv]); [lia|done|].
      unfold_outcome. unfold py_getitem at 1. rewrite Hv. simpl.
      rewrite (IH i Hi); [done|].
      intros j c Hj Hc. apply (Hbefore (S j) c); [lia|done].
Qed.
End GeneratorFacts.

Section AssetStageFacts.
Context {E : Type}.


End AssetStageFacts.

(* ===================================================================== *)
(** ** The batch validator *)
(* ===================================================================== *)

Section ValidationFacts.
Import BatchValidation.

Lemma missing_fields_nil (c : gmap string pyval) :
  missing_fields c = [] ↔ has_fields required_fields c = true.
Proof.
  unfold missing_fields, has_fields, required_fields. simpl.
  destruct (bool_decide (is_Some (c !! "content_type")));
    destruct (bool_decide (is_Some (c !! "title"))); simpl; split; done.
Qed.

(** The loop from index [idx]: it passes when every config is well
    formed, and otherwise stops at the first one that is not. *)
Lemma check_configs_spec (configs : list pyval) :
  ∀ idx,
    match check_configs idx configs with
    | Returned _ => forallb well_formed configs = true
    | Raised e =>
        ∃ (i : nat) (config : pyval),
          configs !! i = Some config ∧ well_formed config = false ∧
          forallb well_formed (take i configs) = true ∧
          e = ValidationError
                (match config with
                 | PDict c => "Missing required fields in config "
                              +:+ pretty (idx + i) +:+ ": "
                              +:+ String.concat ", " (missing_fields c)
                 | _ => "Configuration at index " +:+ pretty (idx + i)
                        +:+ " must be a dictionary"
                 end)
    end.
Proof.
  induction configs as [|config rest IH]; intros idx; [done|].
  simpl.
  assert (Hbad : ∀ e, e = ValidationError
                (match config with
                 | PDict c => "Missing required fields in config "
                              +:+ pretty (idx + 0) +:+ ": "
                              +:+ String.concat ", " (missing_fields c)
                 | _ => "Configuration at index " +:+ pretty (idx + 0)
                        +:+ " must be a dictionary"
                 end) →
          well_formed config = false →
          ∃ (i : nat) (config0 : pyval),
            (config :: rest) !! i = Some config0 ∧ well_formed config0 = false ∧
            forallb well_formed (take i (config :: rest)) = true ∧
            e = ValidationError
                (match config0 with
                 | PDict c => "Missing required fields in config "
                              +:+ pretty (idx + i) +:+ ": "
                              +:+ String.concat ", " (missing_fields c)
                 | _ => "Configuration at index " +:+ pretty (idx + i)
                        +:+ " must be a dictionary"
                 end)).
  { intros e -> Hwf. exists 0, config. done. }
  destruct config as [| | | |c| | | |];
    try (apply Hbad; [by rewrite Nat.add_0_r|done]).
  destruct (missing_fields c) as [|m ms] eqn:Hm.
  - apply missing_fields_nil in Hm. specialize (IH (S idx)).
    destruct (check_configs (S idx) rest) as [[]|e].
    + cbn [forallb well_formed]. by rewrite Hm, IH.
    + destruct IH as (i & config & Hi & Hwf & Htake & ->).
      exists (S i), config. cbn [take forallb well_formed]. rewrite Hm.
      split_and!; try done.
      by replace (idx + S i) with (S idx + i) by lia.
  - apply Hbad; [by rewrite Nat.add_0_r|].
    cbn [well_formed]. destruct (has_fields required_fields c) eqn:Hf; [|done].
    apply missing_fields_nil in Hf. congruence.
Qed.

(** Property X23.  [_validate] of
    [EnhancedContentOrchestrationService], on a [batch_config] that is a
    list, passes exactly when every config is a dict with [content_type]
    and [title]; otherwise it raises a [ValidationError] that names the
    index of the first config that is not, with its missing fields. *)
Theorem batch_validate_first_malformed (d : gmap string pyval) (configs : list pyval) :
  d !! "batch_config" = Some (PList configs) →
  match _validate (PDict d) with
  | Returned _ => forallb well_formed configs = true
  | Raised e =>
      ∃ (i : nat) (config : pyval),
        configs !! i = Some config ∧ well_formed config = false ∧
        forallb well_formed (take i configs) = true ∧
        e = ValidationError
              (match config with
               | PDict c => "Missing required fields in config "
                            +:+ pretty i +:+ ": "
                            +:+ String.concat ", " (missing_fields c)
               | _ => "Configuration at index " +:+ pretty i
                      +:+ " must be a dictionary"
               end)
  end.
Proof.
  intros Hd. unfold _validate. rewrite Hd. apply (check_configs_spec configs 0).
Qed.
End ValidationFacts.

(* ===================================================================== *)
(** ** The controller *)
(* ===================================================================== *)

Section ControllerFacts.
Context {E : Type} `{Clock E}.
Import ContentController.

(** Property X24.  [ContentController.create_content_batch] reads the
    limit from the key [batch_size] of the content settings, 10 when the
    key is missing, as it is in [service_settings.py], whose
    [max_batch_size] is not read.  A longer batch is answered with a
    failure that states the limit; no item is changed and nothing is
    generated. *)
Theorem controller_batch_over_limit (self : t E)
    (batch_data : list (gmap string pyval)) (user : pyval) (limit : Z) (w : World E) :
  default (PInt 10) (content_settings self !! "batch_size") = PInt limit →
  (limit < Z.of_nat (length batch_data))%Z →
  create_content_batch self batch_data user w
    = (Returned (of_result (result_error
                   ("Batch size exceeds maximum allowed (" +:+ pretty limit +:+ ")")),
                 batch_data), w).
Proof.
  intros Hlimit Hlt. unfold create_content_batch, try_except_validation.
  rewrite Hlimit. unfold_monad. simpl.
  apply Z.ltb_lt in Hlt. by rewrite Hlt.
Qed.

(** The item loop stops at the first item that fails validation. *)
Lemma check_items_invalid (self : t E) (user : pyval)
    (batch_data : list (gmap string pyval)) :
  ∀ (k : nat) (item : gmap string pyval),
    batch_data !! k = Some item →
    _validate_content_data self item = false →
    (∀ j other, j < k → batch_data !! j = Some other →
                _validate_content_data self other = true) →
    check_items self user batch_data
      = (map (fun d => <[ "creator" := user ]> d) (take k batch_data)
           ++ drop k batch_data, false).
Proof.
  induction batch_data as [|first rest IH]; intros k item Hk Hbad Hbefore; [done|].
  destruct k as [|k]; simpl in *.
  - inversion Hk; subst. by rewrite Hbad.
  - rewrite (Hbefore 0 first); [|lia|done]. simpl.
    rewrite (IH k item Hk Hbad); [done|].
    intros j other Hj Hother. apply (Hbefore (S j)); [lia|done].
Qed.

(** Property X25.  A batch within the limit whose item [k] is the first
    to fail [_validate_content_data] is answered with [Invalid content in
    batch] before anything is generated.  The items before [k] have
    already been given the [creator]; item [k] and the ones after it are
    as the caller passed them. *)
Theorem controller_batch_invalid_item (self : t E)
    (batch_data : list (gmap string pyval)) (user : pyval) (limit : Z)
    (k : nat) (item : gmap string pyval) (w : World E) :
  default (PInt 10) (content_settings self !! "batch_size") = PInt limit →
  (Z.of_nat (length batch_data) ≤ limit)%Z →
  batch_data !! k = Some item →
  _validate_content_data self item = false →
  (∀ j other, j < k → batch_data !! j = Some other →
              _validate_content_data self other = true) →
  create_content_batch self batch_data user w
    = (Returned (of_result (result_error "Invalid content in batch"),
                 map (fun d => <[ "creator" := user ]> d) (take k batch_data)
                   ++ drop k batch_data), w).
Proof.
  intros Hlimit Hle Hk Hbad Hbefore.
  unfold create_content_batch, try_except_validation.
  rewrite Hlimit. unfold_monad. simpl.
  apply Z.ltb_ge in Hle. rewrite Hle.
  by rewrite (check_items_invalid self user batch_data k item Hk Hbad Hbefore).
Qed.

(** The item loop on valid items. *)
Lemma check_items_valid (self : t E) (user : pyval)
    (batch_data : list (gmap string pyval)) :
  Forall (fun item => _validate_content_data self item = true) batch_data →
  check_items self user batch_data
    = (map (fun d => <[ "creator" := user ]> d) batch_data, true).
Proof.
  induction 1 as [|item rest Hitem _ IH]; [done|].
  simpl. by rewrite Hitem, IH.
Qed.

(** Property X26.  A batch within the limit whose items all pass
    [_validate_content_data] gets no answer from the controller: the
    monitored batch creation raises the [TypeError] of its [async with],
    which is no [ValidationError], so the handler of the controller lets
    it through.  The external world is left as it was. *)
Theorem controller_batch_valid_items_raise (self : t E)
    (batch_data : list (gmap string pyval)) (user : pyval) (limit : Z)
    (w : World E) :
  default (PInt 10) (content_settings self !! "batch_size") = PInt limit →
  (Z.of_nat (length batch_data) ≤ limit)%Z →
  Forall (fun item => _validate_content_data self item = true) batch_data →
  ∃ h' : Heap,
    create_content_batch self batch_data user w
    = (Raised (TypeError
         "'coroutine' object does not support the asynchronous context manager protocol"),
       mkWorld (ext w) h').
Proof.
  intros Hlimit Hle Hall.
  unfold create_content_batch, try_except_validation.
  rewrite Hlimit. unfold_monad. simpl.
  apply Z.ltb_ge in Hle. rewrite Hle.
  rewrite (check_items_valid self user batch_data Hall). simpl.
  destruct (monitored_batch_call_raises (orchestration_service self)
              (map PDict (map (fun d => <[ "creator" := user ]> d) batch_data)) w)
    as [h' Hrun].
  rewrite Hrun. simpl. eauto.
Qed.
End ControllerFacts.

(* ===================================================================== *)
(** ** The properties at sample inputs *)
(* ===================================================================== *)

Lemma wf_used_collector :
  MetricsCollector.wf (fst used_collector) (snd used_collector).
Proof.
  unfold used_collector.
  destruct new_collector as [c h0] eqn:Hnew.
  pose proof wf_new_collector as Hwf. rewrite Hnew in Hwf. simpl in Hwf.
  destruct (record_metric_at_spec 0 c "render" 5 true None h0 Hwf)
    as (h' & Heq & Hwf' & _).
  simpl. by rewrite Heq.
Qed.

Lemma sample_snapshot_run :
  MetricsCollector.get_metrics (fst used_collector) None (snd used_collector)
    = (Returned sample_snapshot, sample_snapshot_heap).
Proof. vm_compute. reflexivity. Qed.

Lemma record_metric_keeps_every_call_witness :
  default [] (MetricsCollector.observe (fst new_collector)
                (record_all (fst new_collector) sample_recordings (snd new_collector))
              !! "render")
    = default [] (MetricsCollector.observe (fst new_collector) (snd new_collector)
                  !! "render")
      ++ map entry_of (recordings_for "render" sample_recordings).
Proof.
  exact (record_metric_keeps_every_call (fst new_collector) sample_recordings
           (snd new_collector) "render" wf_new_collector).
Defined.

Lemma snapshot_follows_known_operations_witness :
  let c := mkRecording 9 "render" 4 true None in
  let h2 := snd (MetricsCollector.record_metric_at 9 (fst used_collector) "render"
                   4 true None sample_snapshot_heap) in
  MetricsCollector.view sample_snapshot h2 !! "render"
    = Some ([sample_metric] ++ [entry_of c]).
Proof.
  intros c h2.
  apply (proj1 (snapshot_follows_known_operations (fst used_collector)
                  (snd used_collector) sample_snapshot_heap sample_snapshot c
                  wf_used_collector sample_snapshot_run)).
  vm_compute. reflexivity.
Defined.

Lemma clear_metrics_spares_snapshots_witness :
  let h2 := snd (MetricsCollector.clear_metrics (fst used_collector)
                   sample_snapshot_heap) in
  fst (MetricsCollector.clear_metrics (fst used_collector) sample_snapshot_heap)
    = Returned tt ∧
  MetricsCollector.observe (fst used_collector) h2 = ∅ ∧
  (∀ op, default [] (MetricsCollector.observe (fst used_collector)
                       (record_all (fst used_collector) sample_recordings h2) !! op)
         = map entry_of (recordings_for op sample_recordings)) ∧
  MetricsCollector.view sample_snapshot
      (record_all (fst used_collector) sample_recordings h2)
    = MetricsCollector.observe (fst used_collector) (snd used_collector).
Proof.
  exact (clear_metrics_spares_snapshots (fst used_collector) (snd used_collector)
           sample_snapshot_heap sample_snapshot sample_recordings
           wf_used_collector sample_snapshot_run).
Defined.

Lemma get_metrics_top_level_independent_witness :
  let mu := MetricsCollector.DelItem sample_snapshot "render" in
  MetricsCollector.observe (fst used_collector)
      (MetricsCollector.mutate mu sample_snapshot_heap)
    = MetricsCollector.observe (fst used_collector) sample_snapshot_heap.
Proof.
  intros mu.
  exact (get_metrics_top_level_independent (fst used_collector) (snd used_collector)
           sample_snapshot sample_snapshot_heap mu wf_used_collector
           sample_snapshot_run eq_refl eq_refl).
Defined.

Lemma monitor_records_outcome_witness :
  let run := PerformanceMonitor.monitor fresh_pm "encode" failing_work [] ∅ fresh_world in
  fst run = Raised (ValueError "bad input") ∧
  ext (snd run) = 3%Z ∧
  MetricsCollector.observe (fst new_collector) (heap (snd run))
    = <["encode" := [mkMetric 3 3 false ∅]]>
        (MetricsCollector.observe (fst new_collector) (snd new_collector)).
Proof.
  exact (monitor_records_outcome fresh_pm "encode" failing_work [] ∅ fresh_world
           wf_new_collector).
Defined.

Lemma execute_with_monitoring_metric_witness :
  let w' := snd (ResourceMonitor.execute_with_monitoring fresh_rm failing_work
                   [PInt 1] ∅ fresh_world) in
  MetricsCollector.observe (fst new_collector) (heap w')
    = <["failing_work" :=
          [mkMetric 3 3 false
             {[ "args" := PRepr [PInt 1] ∅; "kwargs" := PRepr [] ∅ ]}]]>
        (MetricsCollector.observe (fst new_collector) (snd new_collector)).
Proof.
  exact (execute_with_monitoring_metric fresh_rm failing_work [PInt 1] ∅ fresh_world
           wf_new_collector).
Defined.

Lemma telemetry_records_request_witness :
  let request := sample_http_request (Some "10.0.0.7") in
  let run := TelemetryMiddleware.__call__ sample_middleware request
               sample_call_next fresh_world in
  fst run = Returned (TelemetryMiddleware.mkResponse (Some (PInt 200)) PNone) ∧
  ext (snd run) = 2%Z ∧
  ∃ md : gmap string pyval,
    MetricsCollector.observe (fst new_collector) (heap (snd run))
      = <["GET_/content" := [mkMetric 2 2 true md]]>
          (MetricsCollector.observe (fst new_collector) (snd new_collector)) ∧
    md !! "client_ip" = Some (PStr "10.0.0.7") ∧
    md !! "status_code" = Some (PInt 200).
Proof.
  exact (telemetry_records_request sample_middleware
           (sample_http_request (Some "10.0.0.7")) "10.0.0.7" sample_call_next
           fresh_world eq_refl wf_new_collector).
Defined.

Lemma telemetry_without_client_raises_witness :
  TelemetryMiddleware.__call__ sample_middleware (sample_http_request None)
      sample_call_next fresh_world
    = (Raised (AttributeError "'NoneType' object has no attribute 'host'"),
       mkWorld 2%Z (snd new_collector)).
Proof.
  exact (telemetry_without_client_raises sample_middleware (sample_http_request None)
           sample_call_next fresh_world eq_refl).
Defined.

Lemma validate_asset_accepts_iff_witness :
  _validate_asset (sample_asset "image" "image/png") shipped_asset_settings
    = Returned true ∧
  _validate_asset (sample_asset "subtitle" "text/plain") shipped_asset_settings
    ≠ Returned true.
Proof.
  split.
  - apply (proj1 (validate_asset_accepts_iff (sample_asset "image" "image/png")
                    shipped_asset_settings)).
    exists (sample_file "image/png"), (100 * 1024 * 1024)%Z, "image/png",
      "allowed_image_types", ["image/jpeg"; "image/png"; "image/gif"].
    split_and!; try reflexivity; [simpl; lia|].
    apply (bool_decide_unpack _). vm_compute. exact I.
  - apply (proj1 (proj2 (validate_asset_accepts_iff
                           (sample_asset "subtitle" "text/plain")
                           shipped_asset_settings))).
    apply (bool_decide_unpack _). vm_compute. exact I.
Defined.

Lemma process_single_asset_failures_witness :
  AssetProcessing._process_single_asset
      (AssetProcessing.of_class "ContentCreationService")
      (sample_asset "subtitle" "text/plain") shipped_asset_settings sample_world
    = (Returned (result_error "Unsupported asset type: subtitle"), sample_world).
Proof.
  apply (proj1 (process_single_asset_failures
                  (AssetProcessing.of_class "ContentCreationService")
                  (sample_asset "subtitle" "text/plain") shipped_asset_settings
                  sample_world)).
  apply (bool_decide_unpack _). vm_compute. exact I.
Defined.

Lemma create_content_length_limit_witness :
  ContentService.create_content (sample_content_service (Returned tt))
      (PObject 42) (PStr "short") (PStr "Launch") (PStr "Welcome.") sample_world
    = (Returned (result_error "Script exceeds maximum length"), sample_world) ∧
  ContentService.create_content (sample_content_service (Returned tt))
      (PObject 42) (PStr "short") (PStr "Launch") (PStr "Hello") sample_world
    = (Returned (result_ok (PObject 1)), mkWorld 1%Z (heap sample_world)).
Proof.
  split.
  - apply (proj1 (create_content_length_limit (sample_content_service (Returned tt))
                    (PObject 42) (PStr "short") (PStr "Launch") "Welcome." 5
                    sample_world eq_refl)).
    simpl. lia.
  - apply (proj1 (proj2 (create_content_length_limit
                           (sample_content_service (Returned tt))
                           (PObject 42) (PStr "short") (PStr "Launch") "Hello" 5
                           sample_world eq_refl))).
    + simpl. lia.
    + reflexivity.
Defined.

Lemma update_content_rejects_long_script_witness :
  ContentService.update_content (sample_content_service (Returned tt))
      sample_item {[ "script" := PStr "Welcome back." ]} sample_world
    = (Returned (result_error "Script exceeds maximum length", sample_item),
       sample_world).
Proof.
  apply (update_content_rejects_long_script (sample_content_service (Returned tt))
           sample_item {[ "script" := PStr "Welcome back." ]} "Welcome back." 5
           sample_world).
  - reflexivity.
  - vm_compute. reflexivity.
  - simpl. lia.
Defined.

Lemma update_content_failed_save_keeps_changes_witness :
  let data : gmap string pyval :=
    {[ "title" := PStr "Relaunch"; "script" := PStr "Hi." ]} in
  let self := sample_content_service (Raised (Exc "DatabaseError" "locked")) in
  ContentService.update_content self sample_item data sample_world
    = (Returned (result_error "locked", data ∪ sample_item),
       mkWorld 1%Z (heap sample_world)) ∧
  (data ∪ sample_item) !! "script" = Some (PStr "Hi.").
Proof.
  intros data self.
  assert (Hcheck : ∀ script : pyval, data !! "script" = Some script →
            ∃ n limit : Z, py_len script = Returned n ∧
                           ContentService.max_script_length self = PInt limit ∧
                           (n ≤ limit)%Z).
  { intros script Hscript. exists 3%Z, 5%Z.
    assert (Hs : data !! "script" = Some (PStr "Hi.")) by (vm_compute; reflexivity).
    rewrite Hs in Hscript. inversion Hscript; subst.
    split; [reflexivity|]. split; [vm_compute; reflexivity|lia]. }
  destruct (update_content_failed_save_keeps_changes self sample_item data
              (Exc "DatabaseError" "locked") 1%Z sample_world
              Hcheck eq_refl eq_refl) as [Hrun Hkeep].
  split; [exact Hrun|]. apply Hkeep. vm_compute. reflexivity.
Defined.

Lemma upload_asset_rejects_before_create_witness :
  let run := AssetManagementService.upload_asset
               (AssetManagementService.base ∅ sample_asset_store)
               (PContent []) (sample_file "text/plain") "image" sample_world in
  snd run = sample_world ∧
  match fst run with
  | Returned r => success r = false
  | Raised e => is_Exception e = false
  end.
Proof.
  apply (proj1 (upload_asset_rejects_before_create ∅ sample_asset_store
                  (PContent []) (sample_file "text/plain") "image" sample_world)).
  vm_compute. reflexivity.
Defined.

Lemma invalid_item_is_not_created_witness :
  ContentManagementService._process_single_content sample_management
      (PDict {[ "content_type" := PStr "short" ]}) sample_world
    = (Returned (result_error "['Title is required']"), sample_world).
Proof.
  exact (invalid_item_is_not_created sample_management
           (PDict {[ "content_type" := PStr "short" ]})
           (ValidationError "Title is required") sample_world eq_refl).
Defined.

Lemma process_single_content_reads_five_fields_witness :
  ContentManagementService._process_single_content sample_management
      (PDict sample_full_item) sample_world
    = ContentManagementService._process_single_content sample_management
      (PDict sample_item) sample_world.
Proof.
  apply (process_single_content_reads_five_fields sample_management
           sample_full_item sample_item sample_world).
  intros k Hk. rewrite !elem_of_cons in Hk. rewrite elem_of_nil in Hk.
  destruct Hk as [->|[->|[->|[->|[->|[]]]]]]; reflexivity.
Defined.

Lemma batch_generate_scripts_aligned_witness :
  ∃ results : list pyval,
    ContentGenerationUtility.batch_generate_scripts sample_content_gen sample_batch
      = result_ok (PList results) ∧
    length results = length sample_batch ∧
    ∀ (i : nat) (d : gmap string pyval) (content_type : pyval),
      sample_batch !! i = Some (PDict d) →
      d !! "content_type" = Some content_type →
      results !! i =
        Some (data_or_none (ContentGenerationUtility.generate_script sample_content_gen
                              content_type (default PNone (d !! "parameters")))).
Proof.
  apply (batch_generate_scripts_aligned sample_content_gen sample_batch).
  repeat constructor; eexists; (split; [reflexivity|]); eexists; reflexivity.
Defined.

Lemma batch_generate_scripts_missing_content_type_witness :
  ContentGenerationUtility.batch_generate_scripts sample_content_gen
      [sample_config "intro"; PDict {[ "title" := PStr "Launch" ]}]
    = mkServiceResult false PNone
        (Some "Batch script generation failed: 'content_type'").
Proof.
  apply (batch_generate_scripts_missing_content_type sample_content_gen
           [sample_config "intro"; PDict {[ "title" := PStr "Launch" ]}] 1
           {[ "title" := PStr "Launch" ]}).
  - reflexivity.
  - reflexivity.
  - intros j config Hj Hc. destruct j as [|j]; [|lia].
    inversion Hc; subst. eexists. split; [reflexivity|]. eexists. reflexivity.
Defined.

Lemma batch_validate_first_malformed_witness :
  let configs := [sample_config "intro"; PDict {[ "title" := PStr "Launch" ]};
                  PStr "outro"] in
  match BatchValidation._validate (PDict {[ "batch_config" := PList configs ]}) with
  | Returned _ => forallb BatchValidation.well_formed configs = true
  | Raised e =>
      ∃ (i : nat) (config : pyval),
        configs !! i = Some config ∧ BatchValidation.well_formed config = false ∧
        forallb BatchValidation.well_formed (take i configs) = true ∧
        e = ValidationError
              (match config with
               | PDict c => "Missing required fields in config "
                            +:+ pretty i +:+ ": "
                            +:+ String.concat ", " (BatchValidation.missing_fields c)
               | _ => "Configuration at index " +:+ pretty i
                      +:+ " must be a dictionary"
               end)
  end.
Proof.
  intros configs.
  apply (batch_validate_first_malformed {[ "batch_config" := PList configs ]} configs).
  vm_compute. reflexivity.
Defined.

Lemma controller_batch_over_limit_witness :
  let batch_data := replicate 11 sample_item in
  ContentController.create_content_batch sample_controller batch_data sample_user
      sample_world
    = (Returned (of_result (result_error "Batch size exceeds maximum allowed (10)"),
                 batch_data), sample_world).
Proof.
  intros batch_data.
  apply (controller_batch_over_limit sample_controller batch_data sample_user 10
           sample_world).
  - vm_compute. reflexivity.
  - simpl. lia.
Defined.

Lemma controller_batch_invalid_item_witness :
  let untitled : gmap string pyval := {[ "content_type" := PStr "short" ]} in
  let batch_data := [sample_item; untitled; sample_item] in
  ContentController.create_content_batch sample_controller batch_data sample_user
      sample_world
    = (Returned (of_result (result_error "Invalid content in batch"),
                 [<[ "creator" := sample_user ]> sample_item; untitled; sample_item]),
       sample_world).
Proof.
  intros untitled batch_data.
  apply (controller_batch_invalid_item sample_controller batch_data sample_user 10
           1 untitled sample_world).
  - vm_compute. reflexivity.
  - simpl. lia.
  - reflexivity.
  - vm_compute. reflexivity.
  - intros j other Hj Hother. destruct j as [|j]; [|lia].
    inversion Hother; subst. vm_compute. reflexivity.
Defined.

Lemma controller_batch_valid_items_raise_witness :
  fst (ContentController.create_content_batch sample_controller sample_valid_items
         sample_user sample_world)
  = Raised (TypeError
      "'coroutine' object does not support the asynchronous context manager protocol").
Proof.
  destruct (controller_batch_valid_items_raise sample_controller sample_valid_items
              sample_user 10 sample_world) as [h' Hrun].
  - vm_compute. reflexivity.
  - simpl. lia.
  - repeat constructor.
  - rewrite Hrun. reflexivity.
Defined.

Lemma inherited_service_raises_witness :
  let request : gmap string pyval :=
    {[ "content_type" := PStr "short"; "title" := PStr "Launch" ]} in
  let run :=
    EnhancedContentCreationService.create_content_with_pipeline
      (sample_service good_script good_voiceover) request sample_world in
  fst run = Raised (TypeError
    "ContentCreationService._generate_script() got an unexpected keyword argument 'timeout'") ∧
  ext (snd run) = ext sample_world.
Proof.
  intros request run.
  apply (inherited_service_raises (sample_base good_script good_voiceover)
           sample_pm sample_rm request (PInt 3) (PInt 300) sample_world).
  - reflexivity.
  - reflexivity.
  - reflexivity.
Defined.
